(** * QuakeMigrate input/output layer ([QMigrate/io/core.py])

    A shallow embedding of the station, velocity-model and response readers
    and of the [Run] path-bookkeeping class, followed by the properties the
    natural-language specification states about them.

    Conventions of the embedding:
    - a pandas [DataFrame] is an ordered association list from column labels
      to columns (lists of cells); [pd.read_csv] never yields two columns with
      the same label, so a label selects at most one column;
    - Python exceptions are values of [exn]; a computation returns
      [Ok v] or [Raise e];
    - effects (console output, calls into pandas, ObsPy and [QMigrate.util])
      are recorded, in order, in a log of [event]s threaded through the
      state-and-error monad [M];
    - binary64 numbers are [spec_float]s at precision 53 and maximal exponent
      1024, with the arithmetic of [SpecFloat]. *)

From Stdlib Require Import ZArith List String Ascii Bool Lia DecimalString.
From Stdlib Require Import Floats.SpecFloat.
Import ListNotations.

Local Open Scope string_scope.
Local Open Scope list_scope.

(* ================================================================= *)
(** ** Python strings *)

Module Py.

Definition nl : string := String "010"%char EmptyString.
Definition tab : string := String "009"%char EmptyString.

(** Truth value of a string: only the empty string is falsy. *)
Definition truthy (s : string) : bool := negb (s =? "").

(** [a or b] on strings returns the first truthy operand. *)
Definition or (a b : string) : string := if truthy a then a else b.

(** [c in s] for a one-character pattern [c]. *)
Fixpoint contains (c : ascii) (s : string) : bool :=
  match s with
  | EmptyString => false
  | String a s' => Ascii.eqb a c || contains c s'
  end.

(** [s.replace(c, d)] for one-character [c] and [d]. *)
Fixpoint replace (c d : ascii) (s : string) : string :=
  match s with
  | EmptyString => EmptyString
  | String a s' => String (if Ascii.eqb a c then d else a) (replace c d s')
  end.

(** [str(z)] for an integer. *)
Definition str_of_int (z : Z) : string := NilZero.string_of_int (Z.to_int z).

(** [n * s] for an integer [n] and a string [s]: [s] repeated [n] times,
    the empty string when [n <= 0]. *)
Definition repeat_str (n : Z) (s : string) : string :=
  Nat.iter (Z.to_nat n) (String.append s) "".

(** [sep.join(xs)]. *)
Fixpoint join (sep : string) (xs : list string) : string :=
  match xs with
  | [] => ""
  | [x] => x
  | x :: rest => x ++ sep ++ join sep rest
  end.

(** [s.split(c)] for a one-character separator: always at least one
    field, empty fields kept. *)
Fixpoint split (c : ascii) (s : string) : list string :=
  match s with
  | EmptyString => [""]
  | String a s' =>
      if Ascii.eqb a c then "" :: split c s'
      else match split c s' with
           | [] => [String a ""]
           | f :: fs => String a f :: fs
           end
  end.

(** [s.lstrip(c)]. *)
Fixpoint lstrip (c : ascii) (s : string) : string :=
  match s with
  | EmptyString => EmptyString
  | String a s' => if Ascii.eqb a c then lstrip c s' else s
  end.

End Py.

(* ================================================================= *)
(** ** binary64 arithmetic *)

Module F64.

Definition prec : Z := 53.
Definition emax : Z := 1024.

(** Every binary64 datum satisfies [valid]. *)
Definition valid (x : spec_float) : bool := valid_binary prec emax x.

(** [float(z)]: conversion of an integer, rounding to nearest even. *)
Definition of_int (z : Z) : spec_float := binary_normalize prec emax z 0 false.

Definition mul : spec_float -> spec_float -> spec_float := SFmul prec emax.

Definition opp : spec_float -> spec_float := SFopp.

(** The mantissa of [-1.0]: two to the power 52. *)
Definition two52 : positive := 4503599627370496.

End F64.

(* ================================================================= *)
(** ** Table cells and data frames *)

(** The scalars [pd.read_csv] produces: int64, float64 (also the NaN that
    stands for a missing field), bool and str. *)
Inductive cell : Type :=
| CInt (z : Z)
| CFloat (f : spec_float)
| CBool (b : bool)
| CStr (s : string).

Definition Series := list cell.
Definition DataFrame := list (string * Series).

(** [n * x] for the Python integer [n] and a cell [x]. *)
Definition int_mul (n : Z) (x : cell) : cell :=
  match x with
  | CInt z => CInt (n * z)
  | CFloat f => CFloat (F64.mul (F64.of_int n) f)
  | CBool b => CInt (n * (if b then 1 else 0))
  | CStr s => CStr (Py.repeat_str n s)
  end.

(** The arithmetic negation of a numeric cell. *)
Definition negation (x : cell) : cell :=
  match x with
  | CInt z => CInt (- z)
  | CFloat f => CFloat (F64.opp f)
  | other => other
  end.

(** Numeric cells: integers and binary64 numbers. *)
Definition is_number (x : cell) : bool :=
  match x with
  | CInt _ => true
  | CFloat f => F64.valid f
  | _ => false
  end.

Definition is_str (x : cell) : bool :=
  match x with
  | CStr _ => true
  | _ => false
  end.

(** Python exceptions raised or passed on by the module.  [TypeError] and
    [NotImplementedError] carry [str(e)]; [OtherError] stands for any other
    exception of an external library. *)
Inductive exn : Type :=
| StationFileHeaderException
| VelocityModelFileHeaderException
| NotImplementedError (msg : string)
| TypeError (msg : string)
| KeyError (key : string)
| OtherError (kind msg : string).

Inductive result (A : Type) : Type :=
| Ok (a : A)
| Raise (e : exn).

Arguments Ok {A} a.
Arguments Raise {A} e.

Module pd.

(** [df.columns]. *)
Definition columns (df : DataFrame) : list string := map fst df.

(** [label in df.columns]. *)
Definition label_in (label : string) (cols : list string) : bool :=
  existsb (String.eqb label) cols.

Fixpoint lookup (label : string) (df : DataFrame) : option Series :=
  match df with
  | [] => None
  | (l, s) :: rest => if l =? label then Some s else lookup label rest
  end.

(** [df[label]]: a missing label raises [KeyError]. *)
Definition getitem (df : DataFrame) (label : string) : result Series :=
  match lookup label df with
  | Some s => Ok s
  | None => Raise (KeyError label)
  end.

Fixpoint replace_column (label : string) (s : Series) (df : DataFrame)
  : DataFrame :=
  match df with
  | [] => []
  | (l, s0) :: rest =>
      if l =? label then (l, s) :: rest
      else (l, s0) :: replace_column label s rest
  end.

(** [df[label] = s]: an existing column is overwritten in place, a new
    one is appended. *)
Definition setitem (df : DataFrame) (label : string) (s : Series)
  : DataFrame :=
  if label_in label (columns df) then replace_column label s df
  else df ++ [(label, s)].

(** [series.apply(f)]. *)
Definition apply (f : cell -> cell) (s : Series) : Series := map f s.

Section Astype.
(** [repr] of a binary64 number, as the Python runtime prints it. *)
Variable float_repr : spec_float -> string.

(** [str(x)] for a cell. *)
Definition str_of_cell (x : cell) : string :=
  match x with
  | CInt z => Py.str_of_int z
  | CFloat f => float_repr f
  | CBool true => "True"
  | CBool false => "False"
  | CStr s => s
  end.

(** A column converted to strings, cell by cell. *)
Definition as_str (s : Series) : Series :=
  map (fun x => CStr (str_of_cell x)) s.

(** [df.astype({label: "str"})]: a label that is no column raises
    [KeyError]; the other columns are kept. *)
Definition astype_str (df : DataFrame) (label : string)
  : result DataFrame :=
  if label_in label (columns df) then
    Ok (map (fun col : string * Series =>
               if fst col =? label then (fst col, as_str (snd col))
               else col) df)
  else Raise (KeyError label).
End Astype.

End pd.

(* ================================================================= *)
(** ** [pathlib] pure paths (POSIX flavour) *)

Module pathlib.

(** A parsed path: [root] is the empty string, one slash or two slashes;
    [parts] are the components after the root. *)
Record PurePath : Type := mkPath { root : string; parts : list string }.

Definition sep : ascii := "/"%char.

(** [splitroot]: exactly two leading slashes are kept, any other number
    of leading slashes is one root slash. *)
Definition splitroot (part : string) : string * string :=
  match part with
  | String a _ =>
      if Ascii.eqb a sep then
        let stripped := Py.lstrip sep part in
        if (String.length part - String.length stripped =? 2)%nat
        then ("//", stripped)
        else ("/", stripped)
      else ("", part)
  | EmptyString => ("", part)
  end.

(** A component is kept unless it is empty or a single dot. *)
Definition keep (x : string) : bool := negb (x =? "") && negb (x =? ".").

(** [Path(s)]. *)
Definition Path (s : string) : PurePath :=
  let (r, rel) := splitroot s in
  mkPath r (filter keep (Py.split sep rel)).

(** [p / s]: an anchored right operand replaces the left one. *)
Definition div (p : PurePath) (s : string) : PurePath :=
  let q := Path s in
  if Py.truthy (root q) then q
  else mkPath (root p) (parts p ++ parts q).

(** [str(p)]. *)
Definition str (p : PurePath) : string :=
  let s := (root p ++ Py.join "/" (parts p))%string in
  if Py.truthy s then s else ".".

End pathlib.

Infix "</>" := pathlib.div (at level 40, left associativity).

(* ================================================================= *)
(** ** Effects *)

(** What the module does to the outside world, in order. *)
Inductive event : Type :=
| Print (line : string)
| ReadCsv (file delimiter : string)
| ReadInventory (file : string)
| UtilLogger (logstem : pathlib.PurePath) (log : bool)
| LoggingInfo (msg : string).

Definition world := list event.

(** State (the event log) and exceptions. *)
Definition M (A : Type) : Type := world -> result A * world.

Definition ret {A} (a : A) : M A := fun w => (Ok a, w).

Definition raise {A} (e : exn) : M A := fun w => (Raise e, w).

Definition bind {A B} (m : M A) (k : A -> M B) : M B :=
  fun w =>
    match m w with
    | (Ok a, w') => k a w'
    | (Raise e, w') => (Raise e, w')
    end.

(** [try: m except ...: handler]. *)
Definition try {A} (m : M A) (handler : exn -> M A) : M A :=
  fun w =>
    match m w with
    | (Ok a, w') => (Ok a, w')
    | (Raise e, w') => handler e w'
    end.

Definition emit (ev : event) : M unit := fun w => (Ok tt, w ++ [ev]).

Definition lift {A} (r : result A) : M A := fun w => (r, w).

Notation "x <- m ;; k" := (bind m (fun x => k))
  (at level 61, m at next level, right associativity).
Notation "m ;;; k" := (bind m (fun _ => k))
  (at level 61, right associativity).

(** [print(line)]. *)
Definition print (line : string) : M unit := emit (Print line).

(* ================================================================= *)
(** ** The readers of [QMigrate/io/core.py] *)

Section Readers.

(** The external collaborators.  [csv_parser file delimiter] is what
    [pd.read_csv] makes of a file, [inventory_reader file] what ObsPy's
    [read_inventory] makes of it; [float_repr] is Python's [repr] of a
    binary64 number. *)
Context {Inventory : Type}.
Variable csv_parser : string -> string -> result DataFrame.
Variable inventory_reader : string -> result Inventory.
Variable float_repr : spec_float -> string.

(** [pd.read_csv(file, delimiter=delimiter)]. *)
Definition read_csv (file delimiter : string) : M DataFrame :=
  emit (ReadCsv file delimiter) ;;; lift (csv_parser file delimiter).

(** [obspy.read_inventory(file)]. *)
Definition read_inventory (file : string) : M Inventory :=
  emit (ReadInventory file) ;;; lift (inventory_reader file).

(** The operand of [not in] in the station header test, as Python
    evaluates it. *)
Definition station_header_probe : string :=
  Py.or "Latitude" (Py.or "Longitude" (Py.or "Elevation" "Name")).

Definition read_stations (station_file delimiter : string) : M DataFrame :=
  stn_data <- read_csv station_file delimiter ;;
  if negb (pd.label_in station_header_probe (pd.columns stn_data))
  then raise StationFileHeaderException
  else
    elevation <- lift (pd.getitem stn_data "Elevation") ;;
    let stn_data :=
      pd.setitem stn_data "Elevation"
                 (pd.apply (fun x => int_mul (-1) x) elevation) in
    stn_data <- lift (pd.astype_str float_repr stn_data "Name") ;;
    ret stn_data.

(** Alias for [read_stations]. *)
Definition stations (station_file delimiter : string) : M DataFrame :=
  print "FutureWarning: function name has changed - continuing." ;;;
  print "To remove this message, change:" ;;;
  print (Py.tab ++ "'stations' -> 'read_stations'") ;;;
  read_stations station_file delimiter.

Definition read_response_inv (response_file : string) (sac_pz_format : bool)
  : M Inventory :=
  if sac_pz_format then
    raise (NotImplementedError
             ("SAC_PZ is not yet supported. Please contact "
              ++ "the QuakeMigrate developers."))
  else
    response_inv <-
      try (read_inventory response_file)
          (fun e =>
             match e with
             | TypeError e =>
                 let msg := ("Response file not readable by ObsPy: " ++ e
                             ++ Py.nl
                             ++ "Please consult the ObsPy documentation.")%string
                 in raise (TypeError msg)
             | other => raise other
             end) ;;
    ret response_inv.

(** The operand of [not in] in the velocity-model header test. *)
Definition vmodel_header_probe : string :=
  Py.or "Depth" (Py.or "Vp" "Vs").

Definition read_vmodel (vmodel_file delimiter : string) : M DataFrame :=
  vmodel_data <- read_csv vmodel_file delimiter ;;
  if negb (pd.label_in vmodel_header_probe (pd.columns vmodel_data))
  then raise VelocityModelFileHeaderException
  else ret vmodel_data.

End Readers.

(* ================================================================= *)
(** ** The [Run] class *)

Module Run.

(** The attributes set by the constructor.  [stage] defaults to [None]. *)
Record t : Type := mk {
  path : pathlib.PurePath;
  _name : string;
  stage : option string;
  subname : string
}.

Definition dot : ascii := "."%char.
Definition underscore : ascii := "_"%char.

Definition __init__ (path name subname : string) (stage : option string)
  : M t :=
  names <-
    (if Py.contains dot name || Py.contains dot subname then
       print ("Warning: The character '.' is not allowed in run"
              ++ "names/subnames - replacing with '_'.") ;;;
       ret (Py.replace dot underscore name,
            Py.replace dot underscore subname)
     else ret (name, subname)) ;;
  let (name, subname) := names : string * string in
  ret (mk (pathlib.Path path </> name) name stage subname).

(** The [name] property. *)
Definition name (self : t) : string :=
  if subname self =? "" then _name self
  else (_name self ++ "_" ++ subname self)%string.

Section Util.
(** [QMigrate.util] is not part of the sources at hand: its banner
    constant and its logger set-up are taken as given. *)
Variable log_spacer : string.
Variable util_logger : pathlib.PurePath -> bool -> result unit.

Definition __str__ (self : t) : string :=
  (log_spacer ++ Py.nl ++ log_spacer ++ Py.nl
   ++ Py.tab ++ "QuakeMigrate RUN - Path: " ++ pathlib.str (path self)
   ++ " - Name: " ++ name self ++ Py.nl
   ++ log_spacer ++ Py.nl ++ log_spacer ++ Py.nl)%string.

(** The log stem handed to [util.logger]; joining a path with [None]
    (no stage given) is a [TypeError]. *)
Definition logstem (self : t) : result pathlib.PurePath :=
  match stage self with
  | Some stage =>
      Ok (path self </> stage </> subname self </> "logs" </> name self)
  | None =>
      Raise (TypeError
               "unsupported operand type(s) for /: 'PosixPath' and 'NoneType'")
  end.

Definition logger (self : t) (log : bool) : M unit :=
  stem <- lift (logstem self) ;;
  emit (UtilLogger stem log) ;;;
  lift (util_logger stem log) ;;;
  emit (LoggingInfo (__str__ self)).

(** The operations a client can invoke on a constructed run. *)
Inductive call : Type :=
| CallStr
| CallName
| CallLogger (log : bool).

Inductive value : Type :=
| VStr (s : string)
| VNone
| VRaised (e : exn).

(** One method call on the object [self]: the returned value (or the
    exception), the object afterwards, and the world afterwards.  No
    method body assigns to an attribute. *)
Definition invoke (self : t) (c : call) (w : world) : value * t * world :=
  match c with
  | CallStr => (VStr (__str__ self), self, w)
  | CallName => (VStr (name self), self, w)
  | CallLogger log =>
      match logger self log w with
      | (Ok _, w') => (VNone, self, w')
      | (Raise e, w') => (VRaised e, self, w')
      end
  end.

(** A sequence of method calls, each on the object left by the one
    before (exceptions are handed to the caller and do not end the
    object's life). *)
Fixpoint invoke_all (self : t) (cs : list call) (w : world) : t * world :=
  match cs with
  | [] => (self, w)
  | c :: rest =>
      let '(_, self', w') := invoke self c w in
      invoke_all self' rest w'
  end.
End Util.

End Run.

(* ================================================================= *)
(** ** Concrete files used in the examples below *)

Module Sample.

(** A file system holding one delimited file: [pd.read_csv] yields [df]
    for [name] and fails for any other file. *)
Definition one_file (name : string) (df : DataFrame)
  : string -> string -> result DataFrame :=
  fun file _ =>
    if file =? name then Ok df
    else Raise (OtherError "FileNotFoundError" file).

(** No float is rendered in the examples. *)
Definition repr_unused : spec_float -> string := fun _ => "".

Definition num (z : Z) : cell := CFloat (F64.of_int z).

(** [Latitude,Longitude,Elevation,Name] / [10.0,20.0,100.0,ST1]. *)
Definition scenario : DataFrame :=
  [ ("Latitude", [num 10]); ("Longitude", [num 20]);
    ("Elevation", [num 100]); ("Name", [CStr "ST1"]) ].

(** [Name,Elevation,Longitude,Latitude] with numeric station names and
    two rows. *)
Definition reordered : DataFrame :=
  [ ("Name", [CInt 1001; CInt 1002]); ("Elevation", [num 250; CInt (-30)]);
    ("Longitude", [num 20; num 21]); ("Latitude", [num 10; num 11]) ].

(** [Latitude,Elevation,Name] / [10.0,100.0,ST1]: no Longitude column. *)
Definition no_longitude : DataFrame :=
  [ ("Latitude", [num 10]); ("Elevation", [num 100]);
    ("Name", [CStr "ST1"]) ].

(** [Latitude,Longitude,Name]: no Elevation column. *)
Definition no_elevation : DataFrame :=
  [ ("Latitude", [num 10]); ("Longitude", [num 20]);
    ("Name", [CStr "ST1"]) ].

(** [Latitude,Longitude,Elevation]: no Name column. *)
Definition no_name : DataFrame :=
  [ ("Latitude", [num 10]); ("Longitude", [num 20]);
    ("Elevation", [num 100]) ].

(** [Longitude,Elevation,Name]: no Latitude column. *)
Definition no_latitude : DataFrame :=
  [ ("Longitude", [num 20]); ("Elevation", [num 100]);
    ("Name", [CStr "ST1"]) ].

(** [Depth,Vp,Vs] / [0.0,5000.0,3000.0] / [1000.0,6000.0,3500.0]. *)
Definition vmodel : DataFrame :=
  [ ("Depth", [num 0; num 1000]); ("Vp", [num 5000; num 6000]);
    ("Vs", [num 3000; num 3500]) ].

(** [Depth,Vs] / [0.0,3000.0]: no Vp column. *)
Definition vmodel_no_vp : DataFrame :=
  [ ("Depth", [num 0]); ("Vs", [num 3000]) ].

(** [Vp,Vs] / [5000.0,3000.0]: no Depth column. *)
Definition vmodel_no_depth : DataFrame :=
  [ ("Vp", [num 5000]); ("Vs", [num 3000]) ].

(** An inventory reader over a one-element inventory type: [good.xml]
    is readable, [notes.txt] is of no known format, anything else is
    absent. *)
Definition inventories (file : string) : result unit :=
  if file =? "good.xml" then Ok tt
  else if file =? "notes.txt" then Raise (TypeError "Cannot open file/files: notes.txt")
  else Raise (OtherError "FileNotFoundError" file).

End Sample.

(** The three lines the deprecated alias prints. *)
Definition deprecation_notice : list event :=
  [ Print "FutureWarning: function name has changed - continuing.";
    Print "To remove this message, change:";
    Print (Py.tab ++ "'stations' -> 'read_stations'") ].

(** The number of calls to the inventory reader recorded in a log. *)
Fixpoint read_attempts (w : world) : nat :=
  match w with
  | [] => 0
  | ReadInventory _ :: rest => S (read_attempts rest)
  | _ :: rest => read_attempts rest
  end.

(** The number of warnings and other lines printed. *)
Fixpoint printed (w : world) : list string :=
  match w with
  | [] => []
  | Print line :: rest => line :: printed rest
  | _ :: rest => printed rest
  end.

(** The text of the constructor's warning. *)
Definition dot_warning : string :=
  "Warning: The character '.' is not allowed in runnames/subnames - replacing with '_'.".

(** The layout as the specification words it: the same [name] names the
    run directory and the log file. *)
Definition spec_run_root (path name : string) : pathlib.PurePath :=
  pathlib.Path path </> name.

Definition spec_logstem (path name stage subname : string) : pathlib.PurePath :=
  pathlib.Path path </> name </> stage </> subname </> "logs" </> name.

(** A path component that parses to itself: not empty, no separator, not
    a single dot. *)
Definition plain (s : string) : bool :=
  pathlib.keep s && negb (Py.contains pathlib.sep s).

(** ** Further notions and files used by the additional properties *)

(** Whether an exception is a [TypeError], the one class the response
    reader catches. *)
Definition is_type_error (e : exn) : bool :=
  match e with
  | TypeError _ => true
  | _ => false
  end.

(** The number of rows of each column, in column order. *)
Definition row_counts (df : DataFrame) : list nat :=
  map (fun col : string * Series => List.length (snd col)) df.

Module MoreSamples.

(** A file system holding two delimited files. *)
Definition two_files (name1 : string) (df1 : DataFrame)
           (name2 : string) (df2 : DataFrame)
  : string -> string -> result DataFrame :=
  fun file _ =>
    if file =? name1 then Ok df1
    else if file =? name2 then Ok df2
    else Raise (OtherError "FileNotFoundError" file).

(** [Latitude,Longitude,Elevation,Name] with elevations written with a
    unit, which [pd.read_csv] leaves as text. *)
Definition text_elevation : DataFrame :=
  [ ("Latitude", [Sample.num 10; Sample.num 11]);
    ("Longitude", [Sample.num 20; Sample.num 21]);
    ("Elevation", [CStr "100m"; CStr "250m"]);
    ("Name", [CStr "ST1"; CStr "ST2"]) ].

(** The table [read_stations] returns for [Sample.scenario]. *)
Definition scenario_read : DataFrame :=
  [ ("Latitude", [Sample.num 10]); ("Longitude", [Sample.num 20]);
    ("Elevation", [Sample.num (-100)]); ("Name", [CStr "ST1"]) ].

(** A logger set-up that succeeds and one that cannot create the log
    directory. *)
Definition quiet_logger : pathlib.PurePath -> bool -> result unit :=
  fun _ _ => Ok tt.

Definition failing_logger : pathlib.PurePath -> bool -> result unit :=
  fun _ _ => Raise (OtherError "PermissionError" "logs").

End MoreSamples.

(* ================================================================= *)
(** * Properties *)

(** ** Multiplying a binary64 number by [-1] *)

Module F64Facts.

Import F64.
Local Open Scope Z_scope.

Lemma of_int_neg_one : F64.of_int (-1) = S754_finite true two52 (-52).
Proof. reflexivity. Qed.

Lemma digits_times_two52 (m : positive) :
  Zdigits2 (Zpos (two52 * m)) = Zpos (digits2_pos m) + 52.
Proof. unfold two52. cbn [Pos.mul Zdigits2 digits2_pos]. lia. Qed.

(** Shifting [2^52 * m] right by 52 bits loses nothing. *)
Lemma shift_right_52 (m : positive) :
  iter_pos shr_1 52 (shr_record_of_loc (Zpos (two52 * m)) loc_Exact)
  = Build_shr_record (Zpos m) false false.
Proof. reflexivity. Qed.

(** Rounding the exact product of a representable number and one gives
    the number back. *)
Lemma round_times_two52 (s : bool) (m : positive) (e : Z) :
  bounded F64.prec F64.emax m e = true ->
  binary_round_aux F64.prec F64.emax s (Zpos (two52 * m)) (-52 + e) loc_Exact
  = S754_finite s m e.
Proof.
  unfold bounded, canonical_mantissa. intros Hb.
  apply andb_true_iff in Hb as [Hcanon Hmax].
  apply Z.eqb_eq in Hcanon.
  unfold binary_round_aux, shr_fexp.
  rewrite digits_times_two52.
  replace (Zpos (digits2_pos m) + 52 + (-52 + e))
    with (Zpos (digits2_pos m) + e) by lia.
  rewrite Hcanon.
  replace (e - (-52 + e)) with 52 by lia.
  unfold shr at 1. rewrite shift_right_52.
  cbn [shr_m loc_of_shr_record round_nearest_even].
  replace (-52 + e + 52) with e by lia.
  cbn [Zdigits2]. rewrite Hcanon, Z.sub_diag.
  cbn [shr shr_record_of_loc shr_m].
  now rewrite Hmax.
Qed.

Lemma mul_neg_one (x : spec_float) :
  F64.valid x = true -> F64.mul (F64.of_int (-1)) x = F64.opp x.
Proof.
  rewrite of_int_neg_one.
  destruct x as [s | s | | s m e]; intros Hv; try reflexivity.
  apply (round_times_two52 (negb s)), Hv.
Qed.

(** On a numeric cell, [-1 * x] is the negation of [x]. *)
Lemma int_mul_neg_one (x : cell) :
  is_number x = true -> int_mul (-1) x = negation x.
Proof.
  destruct x as [z | f | b | s]; cbn [is_number int_mul negation];
    intros H; try discriminate.
  - f_equal; lia.
  - f_equal. now apply mul_neg_one.
Qed.

Lemma map_int_mul_neg_one (xs : Series) :
  forallb is_number xs = true ->
  pd.apply (fun x => int_mul (-1) x) xs = map negation xs.
Proof.
  unfold pd.apply. induction xs as [| x xs IH]; cbn [forallb map]; intros H.
  - reflexivity.
  - apply andb_true_iff in H as [Hx Hxs].
    now rewrite int_mul_neg_one, IH.
Qed.

End F64Facts.

(** ** Data frames as association lists *)

Module pdFacts.

Import pd.

Lemma label_in_cons (k l : string) (ls : list string) :
  label_in k (l :: ls) = (l =? k) || label_in k ls.
Proof. unfold label_in. cbn [existsb]. now rewrite String.eqb_sym. Qed.

Lemma lookup_label_in (k : string) (df : DataFrame) :
  label_in k (columns df) = true <-> exists s, lookup k df = Some s.
Proof.
  induction df as [| [l s0] df IH]; cbn [columns map fst lookup].
  - split; [discriminate | intros [s H]; discriminate].
  - fold (columns df). rewrite label_in_cons.
    destruct (l =? k); cbn [orb].
    + split; [eauto | reflexivity].
    + exact IH.
Qed.

Lemma lookup_none (k : string) (df : DataFrame) :
  label_in k (columns df) = false <-> lookup k df = None.
Proof.
  induction df as [| [l s0] df IH]; cbn [columns map fst lookup].
  - split; reflexivity.
  - fold (columns df). rewrite label_in_cons.
    destruct (l =? k); cbn [orb].
    + split; discriminate.
    + exact IH.
Qed.

Lemma columns_replace_column (k : string) (v : Series) (df : DataFrame) :
  columns (replace_column k v df) = columns df.
Proof.
  induction df as [| [l s0] df IH]; cbn [replace_column]; [reflexivity |].
  destruct (l =? k); cbn [columns map fst]; [reflexivity |].
  f_equal. exact IH.
Qed.

Lemma lookup_replace_column_same (k : string) (v : Series) (df : DataFrame) :
  label_in k (columns df) = true ->
  lookup k (replace_column k v df) = Some v.
Proof.
  induction df as [| [l s0] df IH]; cbn [columns map fst replace_column].
  - discriminate.
  - fold (columns df). rewrite label_in_cons.
    destruct (l =? k) eqn:E; cbn [orb lookup]; rewrite E; auto.
Qed.

Lemma lookup_replace_column_other (k k' : string) (v : Series)
      (df : DataFrame) :
  (k =? k') = false ->
  lookup k' (replace_column k v df) = lookup k' df.
Proof.
  intros Hne.
  induction df as [| [l s0] df IH]; cbn [replace_column]; [reflexivity |].
  destruct (l =? k) eqn:E; cbn [lookup].
  - apply String.eqb_eq in E. subst l. now rewrite Hne.
  - now rewrite IH.
Qed.

Lemma columns_setitem_present (k : string) (v : Series) (df : DataFrame) :
  label_in k (columns df) = true ->
  columns (setitem df k v) = columns df.
Proof.
  intros H. unfold setitem. rewrite H. apply columns_replace_column.
Qed.

Section Astype.
Variable float_repr : spec_float -> string.

Lemma as_str_is_str (s : Series) :
  forallb is_str (as_str float_repr s) = true.
Proof. induction s as [| x s IH]; [reflexivity | exact IH]. Qed.

Lemma astype_str_ok (df : DataFrame) (k : string) :
  label_in k (columns df) = true ->
  exists df',
    astype_str float_repr df k = Ok df'
    /\ columns df' = columns df
    /\ lookup k df' = option_map (as_str float_repr) (lookup k df)
    /\ forall k', (k =? k') = false -> lookup k' df' = lookup k' df.
Proof.
  intros Hin. unfold astype_str. rewrite Hin.
  eexists. split; [reflexivity |]. clear Hin.
  repeat split.
  - unfold columns. rewrite map_map. apply map_ext.
    intros [l s]. cbn [fst]. now destruct (l =? k).
  - induction df as [| [l s] df IH]; [reflexivity |].
    cbn [map fst snd lookup]. destruct (l =? k) eqn:E; cbn [lookup].
    + now rewrite E.
    + rewrite E. exact IH.
  - intros k' Hne.
    induction df as [| [l s] df IH]; [reflexivity |].
    cbn [map fst snd lookup]. destruct (l =? k) eqn:E; cbn [lookup].
    + apply String.eqb_eq in E. subst l. rewrite Hne. exact IH.
    + now rewrite IH.
Qed.
End Astype.

End pdFacts.

(** ** The tabular readers *)

Section ReaderFacts.

Context {Inventory : Type}.
Variable csv_parser : string -> string -> result DataFrame.
Variable inventory_reader : string -> result Inventory.
Variable float_repr : spec_float -> string.

(** Python evaluates the parenthesised [or]-chains to their first
    string. *)
Lemma station_header_probe_value : station_header_probe = "Latitude".
Proof. reflexivity. Qed.

Lemma vmodel_header_probe_value : vmodel_header_probe = "Depth".
Proof. reflexivity. Qed.

(** [read_stations] as a function of what the parser returns; exactly one
    event, the parser call, is logged. *)
Lemma read_stations_unfold (file delimiter : string) (w : world) :
  read_stations csv_parser float_repr file delimiter w
  = (match csv_parser file delimiter with
     | Raise e => Raise e
     | Ok df =>
         if pd.label_in "Latitude" (pd.columns df) then
           match pd.lookup "Elevation" df with
           | None => Raise (KeyError "Elevation")
           | Some elevation =>
               pd.astype_str float_repr
                 (pd.setitem df "Elevation"
                    (pd.apply (fun x => int_mul (-1) x) elevation)) "Name"
           end
         else Raise StationFileHeaderException
     end,
     w ++ [ReadCsv file delimiter]).
Proof.
  unfold read_stations, read_csv, bind, emit, lift, raise, ret, pd.getitem.
  rewrite station_header_probe_value.
  destruct (csv_parser file delimiter) as [df | e]; [| reflexivity].
  destruct (pd.label_in "Latitude" (pd.columns df)); cbn [negb];
    [| reflexivity].
  destruct (pd.lookup "Elevation" df) as [elevation |]; [| reflexivity].
  destruct (pd.astype_str _ _ _); reflexivity.
Qed.

Lemma read_vmodel_unfold (file delimiter : string) (w : world) :
  read_vmodel csv_parser file delimiter w
  = (match csv_parser file delimiter with
     | Raise e => Raise e
     | Ok df =>
         if pd.label_in "Depth" (pd.columns df) then Ok df
         else Raise VelocityModelFileHeaderException
     end,
     w ++ [ReadCsv file delimiter]).
Proof.
  unfold read_vmodel, read_csv, bind, emit, lift, raise, ret.
  rewrite vmodel_header_probe_value.
  destruct (csv_parser file delimiter) as [df | e]; [| reflexivity].
  destruct (pd.label_in "Depth" (pd.columns df)); reflexivity.
Qed.

(** The header test of [read_stations] rejects a parsed file exactly when
    the Latitude column is missing. *)
Lemma read_stations_header_error_iff
      (file delimiter : string) (w : world) (df : DataFrame) :
  csv_parser file delimiter = Ok df ->
  fst (read_stations csv_parser float_repr file delimiter w)
    = Raise StationFileHeaderException
  <-> pd.label_in "Latitude" (pd.columns df) = false.
Proof.
  intros Hparse. rewrite read_stations_unfold, Hparse. cbn [fst].
  unfold pd.astype_str.
  destruct (pd.label_in "Latitude" (pd.columns df)).
  - split; [| discriminate].
    destruct (pd.lookup "Elevation" df); [| discriminate].
    destruct (pd.label_in "Name" _); discriminate.
  - split; reflexivity.
Qed.

(** The header test of [read_vmodel] rejects a parsed file exactly when
    the Depth column is missing. *)
Lemma read_vmodel_header_error_iff
      (file delimiter : string) (w : world) (df : DataFrame) :
  csv_parser file delimiter = Ok df ->
  fst (read_vmodel csv_parser file delimiter w)
    = Raise VelocityModelFileHeaderException
  <-> pd.label_in "Depth" (pd.columns df) = false.
Proof.
  intros Hparse. rewrite read_vmodel_unfold, Hparse. cbn [fst].
  destruct (pd.label_in "Depth" (pd.columns df)).
  - split; discriminate.
  - split; reflexivity.
Qed.

(** A table returned by [read_vmodel] is the parsed table: a failed read
    returns none. *)
Lemma read_vmodel_result_is_parsed
      (file delimiter : string) (w : world) (df : DataFrame) :
  fst (read_vmodel csv_parser file delimiter w) = Ok df ->
  csv_parser file delimiter = Ok df.
Proof.
  rewrite read_vmodel_unfold. cbn [fst].
  destruct (csv_parser file delimiter) as [df0 | e]; [| discriminate].
  destruct (pd.label_in "Depth" (pd.columns df0)); [| discriminate].
  intros H. exact H.
Qed.

(** C3.  For every parsed station file that has the four required columns
    Latitude, Longitude, Elevation and Name, in any order and among any
    other columns, and whose Elevation column is numeric, [read_stations]
    returns a table with the same column labels in which every Elevation
    value is the negation of the input value, every Name value is a string
    (the [str] of the input value), and all other columns are as parsed. *)
Theorem read_stations_negates_elevation_and_stringifies_name
        (file delimiter : string) (w : world) (df : DataFrame)
        (elevation names : Series) :
  csv_parser file delimiter = Ok df ->
  pd.label_in "Latitude" (pd.columns df) = true ->
  pd.label_in "Longitude" (pd.columns df) = true ->
  pd.lookup "Elevation" df = Some elevation ->
  pd.lookup "Name" df = Some names ->
  forallb is_number elevation = true ->
  exists table,
    read_stations csv_parser float_repr file delimiter w
      = (Ok table, w ++ [ReadCsv file delimiter])
    /\ pd.columns table = pd.columns df
    /\ pd.lookup "Elevation" table = Some (map negation elevation)
    /\ pd.lookup "Name" table = Some (pd.as_str float_repr names)
    /\ forallb is_str (pd.as_str float_repr names) = true
    /\ forall label,
        ("Elevation" =? label) = false -> ("Name" =? label) = false ->
        pd.lookup label table = pd.lookup label df.
Proof.
  intros Hparse Hlat _ Helev Hname Hnum.
  rewrite read_stations_unfold, Hparse, Hlat, Helev.
  rewrite F64Facts.map_int_mul_neg_one by exact Hnum.
  assert (Hin_e : pd.label_in "Elevation" (pd.columns df) = true)
    by (apply pdFacts.lookup_label_in; eauto).
  assert (Hin_n : pd.label_in "Name" (pd.columns df) = true)
    by (apply pdFacts.lookup_label_in; eauto).
  set (df1 := pd.setitem df "Elevation" (map negation elevation)).
  assert (Hcols : pd.columns df1 = pd.columns df)
    by (apply pdFacts.columns_setitem_present; exact Hin_e).
  assert (Hdf1 : df1 = pd.replace_column "Elevation" (map negation elevation) df)
    by (unfold df1, pd.setitem; now rewrite Hin_e).
  destruct (pdFacts.astype_str_ok float_repr df1 "Name")
    as (table & Hast & Hc & Hn & Hother).
  { rewrite Hcols. exact Hin_n. }
  exists table. rewrite Hast.
  split; [reflexivity |]. split; [congruence |].
  split.
  { rewrite Hother by reflexivity. rewrite Hdf1.
    apply pdFacts.lookup_replace_column_same. exact Hin_e. }
  split.
  { rewrite Hn, Hdf1.
    rewrite pdFacts.lookup_replace_column_other by reflexivity.
    now rewrite Hname. }
  split; [apply pdFacts.as_str_is_str |].
  intros label He Hn'. rewrite Hother by exact Hn'. rewrite Hdf1.
  apply pdFacts.lookup_replace_column_other. exact He.
Qed.

(** C9.  For every parsed velocity-model file whose header has the three
    required columns Depth, Vp and Vs, [read_vmodel] returns the parsed
    table itself, with no value changed, after a single call to the
    parser. *)
Theorem read_vmodel_returns_parsed_table
        (file delimiter : string) (w : world) (df : DataFrame) :
  csv_parser file delimiter = Ok df ->
  pd.label_in "Depth" (pd.columns df) = true ->
  pd.label_in "Vp" (pd.columns df) = true ->
  pd.label_in "Vs" (pd.columns df) = true ->
  read_vmodel csv_parser file delimiter w
    = (Ok df, w ++ [ReadCsv file delimiter]).
Proof.
  intros Hparse Hdepth _ _.
  now rewrite read_vmodel_unfold, Hparse, Hdepth.
Qed.

(** C10.  The alias [stations] returns what [read_stations] returns, and
    raises what and when it raises; the only difference in effect is the
    three-line notice printed before the file is read. *)
Theorem stations_is_read_stations_after_notice
        (file delimiter : string) (w : world) :
  fst (stations csv_parser float_repr file delimiter w)
    = fst (read_stations csv_parser float_repr file delimiter w)
  /\ snd (read_stations csv_parser float_repr file delimiter w)
     = w ++ [ReadCsv file delimiter]
  /\ snd (stations csv_parser float_repr file delimiter w)
     = w ++ deprecation_notice ++ [ReadCsv file delimiter].
Proof.
  unfold stations, print, bind, emit.
  rewrite !read_stations_unfold. cbn [fst snd].
  repeat split. unfold deprecation_notice.
  now rewrite <- !app_assoc.
Qed.

(** ** The response reader *)

Lemma read_attempts_app (w1 w2 : world) :
  read_attempts (w1 ++ w2) = read_attempts w1 + read_attempts w2.
Proof.
  induction w1 as [| ev w1 IH]; [reflexivity |].
  destruct ev; cbn [app read_attempts]; rewrite IH; reflexivity.
Qed.

(** C4.  With [sac_pz_format] set, the response reader raises
    [NotImplementedError] (the unsupported-format failure) for every path
    and every state of the file system, and the event log is untouched: the
    inventory reader is not called. *)
Theorem read_response_inv_sac_pz_unsupported
        (response_file : string) (w : world) :
  read_response_inv inventory_reader response_file true w
    = (Raise (NotImplementedError
                "SAC_PZ is not yet supported. Please contact the QuakeMigrate developers."),
       w).
Proof. reflexivity. Qed.

(** C5.  Without [sac_pz_format], the response reader calls the inventory
    reader exactly once.  A [TypeError] of the reader (ObsPy's
    format-detection failure) with message [e] is raised again as a
    [TypeError] whose message is [e] between a fixed prefix and the
    guidance text; an inventory the reader returns is returned as it
    is. *)
Theorem read_response_inv_single_attempt
        (response_file : string) (w : world) :
  (forall e : string,
      inventory_reader response_file = Raise (TypeError e) ->
      read_response_inv inventory_reader response_file false w
      = (Raise (TypeError
                  ("Response file not readable by ObsPy: " ++ e ++ Py.nl
                   ++ "Please consult the ObsPy documentation.")),
         w ++ [ReadInventory response_file]))
  /\ (forall inv : Inventory,
         inventory_reader response_file = Ok inv ->
         read_response_inv inventory_reader response_file false w
         = (Ok inv, w ++ [ReadInventory response_file]))
  /\ read_attempts
       (snd (read_response_inv inventory_reader response_file false w))
     = S (read_attempts w).
Proof.
  unfold read_response_inv, try, read_inventory, bind, emit, lift, raise, ret.
  repeat split.
  - intros e He. now rewrite He.
  - intros inv Hinv. now rewrite Hinv.
  - assert (Hone : read_attempts (w ++ [ReadInventory response_file])
                   = S (read_attempts w))
      by (rewrite read_attempts_app; cbn [read_attempts]; lia).
    destruct (inventory_reader response_file) as [inv | e]; [exact Hone |].
    destruct e; exact Hone.
Qed.

End ReaderFacts.

(** ** Strings and paths *)

Module PathFacts.

Import pathlib.

Lemma replace_removes (c d : ascii) (s : string) :
  Ascii.eqb d c = false -> Py.contains c (Py.replace c d s) = false.
Proof.
  intros Hdc. induction s as [| a s IH]; [reflexivity |].
  cbn [Py.replace Py.contains]. rewrite IH, orb_false_r.
  destruct (Ascii.eqb a c) eqn:E; [exact Hdc | exact E].
Qed.

Lemma replace_absent (c d : ascii) (s : string) :
  Py.contains c s = false -> Py.replace c d s = s.
Proof.
  induction s as [| a s IH]; [reflexivity |].
  cbn [Py.replace Py.contains]. intros H.
  apply orb_false_iff in H as [Ha Hs]. now rewrite Ha, IH.
Qed.

(** A replacement changes the string exactly when the character
    occurs. *)
Lemma replace_changes_iff (c d : ascii) (s : string) :
  Ascii.eqb d c = false ->
  (Py.replace c d s =? s) = negb (Py.contains c s).
Proof.
  intros Hdc. destruct (Py.contains c s) eqn:E; cbn [negb].
  - apply String.eqb_neq. intros Heq.
    pose proof (replace_removes c d s Hdc) as Hno.
    rewrite Heq in Hno. congruence.
  - apply String.eqb_eq. now apply replace_absent.
Qed.

Lemma contains_append (c : ascii) (s1 s2 : string) :
  Py.contains c (s1 ++ s2) = Py.contains c s1 || Py.contains c s2.
Proof.
  induction s1 as [| a s1 IH]; [reflexivity |].
  cbn [String.append Py.contains]. now rewrite IH, orb_assoc.
Qed.

Lemma split_without_separator (c : ascii) (s : string) :
  Py.contains c s = false -> Py.split c s = [s].
Proof.
  induction s as [| a s IH]; [reflexivity |].
  cbn [Py.contains Py.split]. intros H.
  apply orb_false_iff in H as [Ha Hs]. now rewrite Ha, IH.
Qed.

(** A plain component parses to itself. *)
Lemma Path_plain (s : string) : plain s = true -> Path s = mkPath "" [s].
Proof.
  unfold plain. intros H. apply andb_true_iff in H as [Hkeep Hsep].
  apply negb_true_iff in Hsep.
  unfold Path, splitroot.
  destruct s as [| a s]; [discriminate |].
  pose proof Hsep as Hsplit. apply split_without_separator in Hsplit.
  cbn [Py.contains] in Hsep. apply orb_false_iff in Hsep as [Ha _].
  rewrite Ha, Hsplit. cbn [filter]. now rewrite Hkeep.
Qed.

Lemma div_plain (p : PurePath) (s : string) :
  plain s = true -> p </> s = mkPath (root p) (parts p ++ [s]).
Proof. intros H. unfold div. now rewrite (Path_plain s H). Qed.

(** Joining with the empty string changes nothing. *)
Lemma div_empty (p : PurePath) : p </> "" = p.
Proof. destruct p as [r ps]. unfold div. cbn. now rewrite app_nil_r. Qed.

(** The effective name of a run whose stored name is plain and whose
    subname holds no separator is plain. *)
Lemma name_plain (r : Run.t) :
  plain (Run._name r) = true ->
  Py.contains sep (Run.subname r) = false ->
  plain (Run.name r) = true.
Proof.
  unfold Run.name. intros Hplain Hsub.
  destruct (Run.subname r =? ""); [exact Hplain |].
  unfold plain in *. apply andb_true_iff in Hplain as [Hkeep Hsep].
  apply negb_true_iff in Hsep.
  rewrite !contains_append, Hsep, Hsub.
  unfold keep.
  destruct (Run._name r) as [| a [| b n]]; [discriminate | |];
    cbn; destruct (Ascii.eqb a "."); reflexivity.
Qed.

Lemma append_assoc (s1 s2 s3 : string) :
  ((s1 ++ s2) ++ s3 = s1 ++ (s2 ++ s3))%string.
Proof.
  induction s1 as [| a s1 IH]; [reflexivity |].
  cbn [String.append]. now rewrite IH.
Qed.

Lemma join_app (sp : string) (xs ys : list string) :
  xs <> [] -> ys <> [] ->
  Py.join sp (xs ++ ys) = (Py.join sp xs ++ sp ++ Py.join sp ys)%string.
Proof.
  intros Hx Hy. induction xs as [| x xs IH]; [congruence |].
  destruct xs as [| x' xs].
  - destruct ys; [congruence | reflexivity].
  - change (Py.join sp ((x :: x' :: xs) ++ ys))
      with (x ++ sp ++ Py.join sp ((x' :: xs) ++ ys))%string.
    rewrite IH by discriminate.
    change (Py.join sp (x :: x' :: xs))
      with (x ++ sp ++ Py.join sp (x' :: xs))%string.
    now rewrite !append_assoc.
Qed.

Lemma truthy_append_l (s1 s2 : string) :
  Py.truthy s1 = true -> Py.truthy (s1 ++ s2) = true.
Proof. destruct s1; [discriminate | reflexivity]. Qed.

Lemma truthy_append_r (s1 s2 : string) :
  Py.truthy s2 = true -> Py.truthy (s1 ++ s2) = true.
Proof. destruct s1; [trivial | reflexivity]. Qed.

(** The components of a parsed path are neither empty nor a dot. *)
Lemma Path_parts_keep (s : string) :
  Forall (fun x => keep x = true) (parts (Path s)).
Proof.
  unfold Path. destruct (splitroot s) as [r rel]. cbn [parts].
  apply Forall_forall. intros x Hin. apply filter_In in Hin. tauto.
Qed.

Lemma join_truthy (xs : list string) :
  xs <> [] -> Forall (fun x => keep x = true) xs ->
  Py.truthy (Py.join "/" xs) = true.
Proof.
  intros Hne Hall. destruct xs as [| x xs]; [congruence |].
  inversion Hall as [| ? ? Hx _]; subst.
  assert (Hxt : Py.truthy x = true)
    by (unfold keep in Hx; apply andb_true_iff in Hx; tauto).
  destruct xs; [exact Hxt |]. now apply truthy_append_l.
Qed.

(** Rendering a path extended by further components. *)
Lemma str_extend (base : PurePath) (more : list string) :
  parts base <> [] ->
  Forall (fun x => keep x = true) (parts base) ->
  more <> [] ->
  str (mkPath (root base) (parts base ++ more))
  = (str base ++ "/" ++ Py.join "/" more)%string.
Proof.
  intros Hne Hall Hmore. unfold str. cbn [root parts].
  rewrite join_app by assumption.
  pose proof (join_truthy _ Hne Hall) as Ht.
  rewrite (truthy_append_r (root base) _ Ht).
  rewrite (truthy_append_r (root base) _ (truthy_append_l _ _ Ht)).
  now rewrite append_assoc.
Qed.

End PathFacts.

(** ** The [Run] class *)

Section RunFacts.

Variable log_spacer : string.
Variable util_logger : pathlib.PurePath -> bool -> result unit.

(** The constructor as a function of its arguments: the stored names are
    the inputs with every dot replaced, and the warning is printed when
    either input holds a dot. *)
Lemma Run_init_unfold (path nm sub : string) (stage : option string)
      (w : world) :
  Run.__init__ path nm sub stage w
  = (Ok (Run.mk (pathlib.Path path </> Py.replace Run.dot Run.underscore nm)
                (Py.replace Run.dot Run.underscore nm) stage
                (Py.replace Run.dot Run.underscore sub)),
     if Py.contains Run.dot nm || Py.contains Run.dot sub
     then w ++ [Print dot_warning] else w).
Proof.
  unfold Run.__init__, bind, print, emit, ret.
  destruct (Py.contains Run.dot nm) eqn:En;
    destruct (Py.contains Run.dot sub) eqn:Es; cbn [orb]; try reflexivity.
  now rewrite !PathFacts.replace_absent by assumption.
Qed.

(** No method call changes the object. *)
Lemma invoke_all_keeps (calls : list Run.call) (r : Run.t) (w : world) :
  fst (Run.invoke_all log_spacer util_logger r calls w) = r.
Proof.
  revert r w. induction calls as [| c calls IH]; intros r w; [reflexivity |].
  cbn [Run.invoke_all].
  destruct c as [| | log]; cbn [Run.invoke]; try apply IH.
  destruct (Run.logger log_spacer util_logger r log w) as [[u | e] w'];
    apply IH.
Qed.

(** C6.  For every path, name, subname and stage the constructor succeeds;
    the stored name and subname are the inputs with each dot replaced by an
    underscore and hold no dot; the warning is printed exactly when a stored
    value differs from its input, and nothing else is printed; no sequence
    of later method calls changes the stored name or subname.  With the
    default subname, the name [run.1] is stored as [run_1] with a warning
    and [run1] is stored unchanged without one. *)
Theorem Run_init_sanitises_names :
  (forall (path nm sub : string) (stage : option string) (w : world),
      exists r w',
        Run.__init__ path nm sub stage w = (Ok r, w')
        /\ Run._name r = Py.replace Run.dot Run.underscore nm
        /\ Run.subname r = Py.replace Run.dot Run.underscore sub
        /\ Py.contains Run.dot (Run._name r) = false
        /\ Py.contains Run.dot (Run.subname r) = false
        /\ w' = (if negb (Run._name r =? nm) || negb (Run.subname r =? sub)
                 then w ++ [Print dot_warning] else w)
        /\ forall (calls : list Run.call) (w2 : world),
            let r' := fst (Run.invoke_all log_spacer util_logger r calls w2) in
            Run._name r' = Run._name r /\ Run.subname r' = Run.subname r)
  /\ (forall (path : string) (stage : option string) (w : world),
         Run.__init__ path "run.1" "" stage w
         = (Ok (Run.mk (pathlib.Path path </> "run_1") "run_1" stage ""),
            w ++ [Print dot_warning]))
  /\ (forall (path : string) (stage : option string) (w : world),
         Run.__init__ path "run1" "" stage w
         = (Ok (Run.mk (pathlib.Path path </> "run1") "run1" stage ""), w)).
Proof.
  split; [| split; intros; apply Run_init_unfold].
  intros path nm sub stage w.
  eexists. eexists. split; [apply Run_init_unfold |].
  cbn [Run._name Run.subname].
  split; [reflexivity |]. split; [reflexivity |].
  split; [now apply PathFacts.replace_removes |].
  split; [now apply PathFacts.replace_removes |].
  split.
  - rewrite !PathFacts.replace_changes_iff by reflexivity.
    now rewrite !negb_involutive.
  - intros calls w2. cbv zeta. now rewrite invoke_all_keeps.
Qed.

(** C7.  For every run, the [name] property is the stored name when the
    subname is empty and the stored name, an underscore and the subname
    otherwise. *)
Theorem Run_name_appends_subname (r : Run.t) :
  ((Run.subname r =? "") = true -> Run.name r = Run._name r)
  /\ ((Run.subname r =? "") = false ->
      Run.name r = (Run._name r ++ "_" ++ Run.subname r)%string).
Proof.
  unfold Run.name. split; intros H; now rewrite H.
Qed.

(** For a constructed run: a non-empty subname without a dot is appended
    as given. *)
Lemma Run_name_of_constructed (path nm sub : string) (stage : option string)
      (w w' : world) (r : Run.t) :
  Run.__init__ path nm sub stage w = (Ok r, w') ->
  (sub = "" -> Run.name r = Run._name r)
  /\ (sub <> "" -> Py.contains Run.dot sub = false ->
      Run.name r = (Run._name r ++ "_" ++ sub)%string).
Proof.
  rewrite Run_init_unfold. intros H. injection H as <- _.
  unfold Run.name. cbn [Run._name Run.subname]. split.
  - intros ->. reflexivity.
  - intros Hne Hdot. rewrite PathFacts.replace_absent by exact Hdot.
    apply String.eqb_neq in Hne. now rewrite Hne.
Qed.

Lemma no_dot_not_dot (s : string) :
  Py.contains Run.dot s = false -> (s =? ".") = false.
Proof.
  intros H. apply String.eqb_neq. intros ->. discriminate.
Qed.

(** The layout in terms of path joins, for every argument. *)
Lemma Run_layout_joins (path nm sub stage : string) (w w' : world)
      (r : Run.t) :
  Run.__init__ path nm sub (Some stage) w = (Ok r, w') ->
  Run.path r = pathlib.Path path </> Run._name r
  /\ Run.logstem r
     = Ok (pathlib.Path path </> Run._name r </> stage </> Run.subname r
           </> "logs" </> Run.name r).
Proof.
  rewrite Run_init_unfold. intros H. injection H as <- _.
  split; reflexivity.
Qed.

(** What [Run.logger] hands to [util.logger] is the stem of
    [Run.logstem]. *)
Lemma Run_logger_passes_logstem (r : Run.t) (stem : pathlib.PurePath)
      (log : bool) (w : world) :
  Run.logstem r = Ok stem ->
  exists rest,
    snd (Run.logger log_spacer util_logger r log w)
    = w ++ UtilLogger stem log :: rest.
Proof.
  intros Hstem. unfold Run.logger, bind, lift, emit. rewrite Hstem.
  destruct (util_logger stem log) as [u | e].
  - exists [LoggingInfo (Run.__str__ log_spacer r)]. cbn [snd].
    now rewrite <- app_assoc.
  - exists []. reflexivity.
Qed.

(** The stem of [Run.logstem], component by component, for plain
    components. *)
Lemma Run_logstem_parts (path nm sub stage : string) (w w' : world)
      (r : Run.t) :
  Run.__init__ path nm sub (Some stage) w = (Ok r, w') ->
  plain (Run._name r) = true ->
  plain stage = true ->
  Py.contains pathlib.sep (Run.subname r) = false ->
  Run.logstem r
  = Ok (pathlib.mkPath
          (pathlib.root (pathlib.Path path))
          (pathlib.parts (pathlib.Path path)
           ++ [Run._name r; stage]
           ++ (if Run.subname r =? "" then [] else [Run.subname r])
           ++ ["logs"; Run.name r])).
Proof.
  intros Hinit Hname Hstage Hsub.
  pose proof (PathFacts.name_plain r Hname Hsub) as Heff.
  destruct (Run_layout_joins _ _ _ _ _ _ _ Hinit) as [_ Hstem].
  assert (Hdot : Py.contains Run.dot (Run.subname r) = false).
  { rewrite Run_init_unfold in Hinit. injection Hinit as <- _.
    now apply PathFacts.replace_removes. }
  assert (Hlogs : plain "logs" = true) by reflexivity.
  rewrite Hstem. f_equal.
  rewrite (PathFacts.div_plain _ _ Hname), (PathFacts.div_plain _ _ Hstage).
  destruct (Run.subname r =? "") eqn:Eempty.
  - apply String.eqb_eq in Eempty. rewrite Eempty in *.
    rewrite PathFacts.div_empty.
    rewrite (PathFacts.div_plain _ _ Hlogs), (PathFacts.div_plain _ _ Heff).
    cbn [pathlib.root pathlib.parts]. now rewrite <- !app_assoc.
  - assert (Hplain_sub : plain (Run.subname r) = true).
    { unfold plain, pathlib.keep.
      now rewrite Eempty, (no_dot_not_dot _ Hdot), Hsub. }
    rewrite (PathFacts.div_plain _ _ Hplain_sub).
    rewrite (PathFacts.div_plain _ _ Hlogs), (PathFacts.div_plain _ _ Heff).
    cbn [pathlib.root pathlib.parts]. now rewrite <- !app_assoc.
Qed.

(** C8, amended.  For every run constructed from a base path, a name, a
    subname and a stage, with the stored name and the stage single path
    components and no separator in the stored subname: the run root is the
    base path extended by the stored name, and the log stem computed by
    [Run.logger] and handed to [util.logger] is the base path extended by
    the stored name, the stage, the stored subname when it is not empty,
    [logs], and the value of the [name] property (the stored name alone
    for an empty subname, the stored name, an underscore and the subname
    otherwise). *)
Theorem Run_logstem_layout (path nm sub stage : string) (w w' : world)
        (r : Run.t) :
  Run.__init__ path nm sub (Some stage) w = (Ok r, w') ->
  plain (Run._name r) = true ->
  plain stage = true ->
  Py.contains pathlib.sep (Run.subname r) = false ->
  let base := pathlib.Path path in
  let stem :=
    pathlib.mkPath
      (pathlib.root base)
      (pathlib.parts base
       ++ [Run._name r; stage]
       ++ (if Run.subname r =? "" then [] else [Run.subname r])
       ++ ["logs"; Run.name r]) in
  Run.path r
    = pathlib.mkPath (pathlib.root base) (pathlib.parts base ++ [Run._name r])
  /\ Run.logstem r = Ok stem
  /\ forall (log : bool) (w2 : world),
      exists rest,
        snd (Run.logger log_spacer util_logger r log w2)
        = w2 ++ UtilLogger stem log :: rest.
Proof.
  intros Hinit Hname Hstage Hsub base stem.
  destruct (Run_layout_joins _ _ _ _ _ _ _ Hinit) as [Hpath _].
  pose proof (Run_logstem_parts _ _ _ _ _ _ _ Hinit Hname Hstage Hsub)
    as Hstem.
  split; [| split].
  - rewrite Hpath. now apply PathFacts.div_plain.
  - exact Hstem.
  - intros log w2. now apply Run_logger_passes_logstem.
Qed.

(** X13.  The same layout as a string, for a base path with at least one
    component: the rendered stem is the rendered base path followed by the
    stored name, the stage, the subname when it is not empty, [logs] and
    the value of the [name] property, each after one separator. *)
Lemma Run_logstem_string (path nm sub stage : string) (w w' : world)
      (r : Run.t) :
  Run.__init__ path nm sub (Some stage) w = (Ok r, w') ->
  plain (Run._name r) = true ->
  plain stage = true ->
  Py.contains pathlib.sep (Run.subname r) = false ->
  pathlib.parts (pathlib.Path path) <> [] ->
  exists stem,
    Run.logstem r = Ok stem
    /\ pathlib.str stem
       = (pathlib.str (pathlib.Path path) ++ "/" ++ Run._name r
          ++ "/" ++ stage
          ++ (if Run.subname r =? "" then "" else "/" ++ Run.subname r)
          ++ "/logs/" ++ Run.name r)%string.
Proof.
  intros Hinit Hname Hstage Hsub Hbase.
  pose proof (Run_logstem_parts _ _ _ _ _ _ _ Hinit Hname Hstage Hsub)
    as Hstem.
  eexists. split; [exact Hstem |].
  rewrite PathFacts.str_extend;
    [| exact Hbase | apply PathFacts.Path_parts_keep | discriminate].
  destruct (Run.subname r =? ""); reflexivity.
Qed.

End RunFacts.

(** ** The properties on concrete files *)

(** The end-to-end scenario of the specification: the one-row file
    [Latitude,Longitude,Elevation,Name / 10.0,20.0,100.0,ST1] yields the
    record with elevation [-100.0]. *)
Example read_stations_scenario :
  read_stations (Sample.one_file "stations.csv" Sample.scenario)
                Sample.repr_unused "stations.csv" "," []
  = (Ok [ ("Latitude", [Sample.num 10]); ("Longitude", [Sample.num 20]);
          ("Elevation", [Sample.num (-100)]); ("Name", [CStr "ST1"]) ],
     [ReadCsv "stations.csv" ","]).
Proof. reflexivity. Qed.

(** C1.  A station file with the header [Latitude,Elevation,Name] lacks the
    required Longitude column, yet [read_stations] raises nothing and
    returns a table.  Files lacking Elevation or Name end in a [KeyError]
    of pandas; only a file lacking Latitude gets
    [StationFileHeaderException]. *)
Theorem read_stations_accepts_missing_longitude :
  pd.label_in "Longitude" (pd.columns Sample.no_longitude) = false
  /\ read_stations (Sample.one_file "stations.csv" Sample.no_longitude)
                   Sample.repr_unused "stations.csv" "," []
     = (Ok [ ("Latitude", [Sample.num 10]); ("Elevation", [Sample.num (-100)]);
             ("Name", [CStr "ST1"]) ],
        [ReadCsv "stations.csv" ","])
  /\ fst (read_stations (Sample.one_file "stations.csv" Sample.no_elevation)
                        Sample.repr_unused "stations.csv" "," [])
     = Raise (KeyError "Elevation")
  /\ fst (read_stations (Sample.one_file "stations.csv" Sample.no_name)
                        Sample.repr_unused "stations.csv" "," [])
     = Raise (KeyError "Name")
  /\ fst (read_stations (Sample.one_file "stations.csv" Sample.no_latitude)
                        Sample.repr_unused "stations.csv" "," [])
     = Raise StationFileHeaderException.
Proof. repeat split. Qed.

(** C2.  A velocity-model file with the header [Depth,Vs] lacks the
    required Vp column, yet [read_vmodel] raises nothing and returns the
    table; only a file lacking Depth gets
    [VelocityModelFileHeaderException]. *)
Theorem read_vmodel_accepts_missing_vp :
  pd.label_in "Vp" (pd.columns Sample.vmodel_no_vp) = false
  /\ read_vmodel (Sample.one_file "vmodel.csv" Sample.vmodel_no_vp)
                 "vmodel.csv" "," []
     = (Ok Sample.vmodel_no_vp, [ReadCsv "vmodel.csv" ","])
  /\ fst (read_vmodel (Sample.one_file "vmodel.csv" Sample.vmodel_no_depth)
                      "vmodel.csv" "," [])
     = Raise VelocityModelFileHeaderException.
Proof. repeat split. Qed.

(** The station reader on a file with reordered columns, numeric station
    names and a mixed integer and float Elevation column. *)
Lemma read_stations_reordered_witness :
  exists table,
    read_stations (Sample.one_file "stations.csv" Sample.reordered)
                  Sample.repr_unused "stations.csv" ";" []
      = (Ok table, [] ++ [ReadCsv "stations.csv" ";"])
    /\ pd.columns table = pd.columns Sample.reordered
    /\ pd.lookup "Elevation" table
       = Some (map negation [Sample.num 250; CInt (-30)])
    /\ pd.lookup "Name" table
       = Some (pd.as_str Sample.repr_unused [CInt 1001; CInt 1002])
    /\ forallb is_str (pd.as_str Sample.repr_unused [CInt 1001; CInt 1002])
       = true
    /\ forall label,
        ("Elevation" =? label) = false -> ("Name" =? label) = false ->
        pd.lookup label table = pd.lookup label Sample.reordered.
Proof.
  apply (read_stations_negates_elevation_and_stringifies_name
           (Sample.one_file "stations.csv" Sample.reordered)
           Sample.repr_unused "stations.csv" ";" [] Sample.reordered);
    reflexivity.
Defined.

(** The velocity-model reader on a complete file. *)
Lemma read_vmodel_complete_witness :
  read_vmodel (Sample.one_file "vmodel.csv" Sample.vmodel) "vmodel.csv" "," []
  = (Ok Sample.vmodel, [] ++ [ReadCsv "vmodel.csv" ","]).
Proof.
  apply (read_vmodel_returns_parsed_table
           (Sample.one_file "vmodel.csv" Sample.vmodel)
           "vmodel.csv" "," [] Sample.vmodel);
    reflexivity.
Defined.

(** The response reader on an unreadable and on a readable file. *)
Lemma read_response_inv_notes_witness :
  read_response_inv Sample.inventories "notes.txt" false []
  = (Raise (TypeError
              ("Response file not readable by ObsPy: "
               ++ "Cannot open file/files: notes.txt" ++ Py.nl
               ++ "Please consult the ObsPy documentation.")),
     [] ++ [ReadInventory "notes.txt"])
  /\ read_response_inv Sample.inventories "good.xml" false []
     = (Ok tt, [] ++ [ReadInventory "good.xml"]).
Proof.
  split.
  - apply (proj1 (read_response_inv_single_attempt
                    Sample.inventories "notes.txt" [])).
    reflexivity.
  - apply (proj1 (proj2 (read_response_inv_single_attempt
                           Sample.inventories "good.xml" []))).
    reflexivity.
Defined.

(** The [name] property with and without a subname. *)
Lemma Run_name_witness :
  Run.name (Run.mk (pathlib.Path "out" </> "run") "run" None "")
  = "run"
  /\ Run.name (Run.mk (pathlib.Path "out" </> "run") "run" None "sub")
     = ("run" ++ "_" ++ "sub")%string.
Proof.
  split.
  - apply (proj1 (Run_name_appends_subname
                    (Run.mk (pathlib.Path "out" </> "run") "run" None ""))).
    reflexivity.
  - apply (proj2 (Run_name_appends_subname
                    (Run.mk (pathlib.Path "out" </> "run") "run" None "sub"))).
    reflexivity.
Defined.

(** The layout of the run [out], [run.1], [sub], [detect]. *)
Lemma Run_logstem_layout_witness :
  Run.logstem (Run.mk (pathlib.Path "out" </> "run_1") "run_1"
                      (Some "detect") "sub")
  = Ok (pathlib.mkPath "" ["out"; "run_1"; "detect"; "sub"; "logs"; "run_1_sub"]).
Proof.
  apply (Run_logstem_layout
           "" (fun _ _ => Ok tt) "out" "run.1" "sub" "detect"
           [] [Print dot_warning]
           (Run.mk (pathlib.Path "out" </> "run_1") "run_1"
                   (Some "detect") "sub"));
    reflexivity.
Defined.

(** C8, as stated.  For the run constructed from [out], [run], [sub] and
    [detect] the run root is [out/run] and the log stem is
    [out/run/detect/sub/logs/run_sub]: no single name fits both the run
    directory and the log file of the stated layout. *)
Lemma Run_layout_no_single_name :
  exists r : Run.t,
    Run.__init__ "out" "run" "sub" (Some "detect") [] = (Ok r, [])
    /\ Run.logstem r
       = Ok (pathlib.mkPath "" ["out"; "run"; "detect"; "sub"; "logs"; "run_sub"])
    /\ ~ exists nm : string,
          Run.path r = spec_run_root "out" nm
          /\ Run.logstem r = Ok (spec_logstem "out" nm "detect" "sub").
Proof.
  eexists. split; [reflexivity |]. split; [reflexivity |].
  intros [nm [Hroot Hstem]].
  unfold spec_logstem, spec_run_root in *.
  cbn [Run.path Run.logstem Run.stage Run.subname Run._name] in Hroot, Hstem.
  injection Hstem as Hstem.
  unfold pathlib.div in Hroot, Hstem.
  destruct (Py.truthy (pathlib.root (pathlib.Path nm))) eqn:Hanchored.
  - rewrite <- Hroot in Hanchored. discriminate.
  - cbn in Hroot. injection Hroot as Hparts.
    rewrite <- Hparts in Hstem. cbn in Hstem. discriminate.
Qed.

(* ================================================================= *)
(** * Further properties of the readers *)

Module CellFacts.

Lemma negation_involutive (x : cell) : negation (negation x) = x.
Proof.
  destruct x as [z | f | b | s]; cbn [negation]; try reflexivity.
  - now rewrite Z.opp_involutive.
  - destruct f as [sg | sg | | sg m e]; cbn [F64.opp SFopp];
      try rewrite negb_involutive; reflexivity.
Qed.

Lemma is_number_negation (x : cell) : is_number (negation x) = is_number x.
Proof.
  destruct x as [z | f | b | s]; cbn [negation is_number]; try reflexivity.
  destruct f; reflexivity.
Qed.

Lemma forallb_is_number_negation (xs : Series) :
  forallb is_number (map negation xs) = forallb is_number xs.
Proof.
  induction xs as [| x xs IH]; [reflexivity |].
  cbn [map forallb]. now rewrite is_number_negation, IH.
Qed.

Lemma map_negation_involutive (xs : Series) :
  map negation (map negation xs) = xs.
Proof.
  rewrite map_map. rewrite <- (map_id xs) at 2.
  apply map_ext. exact negation_involutive.
Qed.

(** [-1 * s] is the empty string for every string [s]. *)
Lemma int_mul_neg_one_str (x : cell) :
  is_str x = true -> int_mul (-1) x = CStr "".
Proof. destruct x; try discriminate. reflexivity. Qed.

Lemma apply_int_mul_neg_one_str (xs : Series) :
  forallb is_str xs = true ->
  pd.apply (fun x => int_mul (-1) x) xs = map (fun _ => CStr "") xs.
Proof.
  unfold pd.apply. induction xs as [| x xs IH]; cbn [forallb map]; intros H.
  - reflexivity.
  - apply andb_true_iff in H as [Hx Hxs].
    now rewrite int_mul_neg_one_str, IH.
Qed.

Section Str.
Variable float_repr : spec_float -> string.

(** Converting strings to strings changes nothing. *)
Lemma as_str_of_strings (xs : Series) :
  forallb is_str xs = true -> pd.as_str float_repr xs = xs.
Proof.
  unfold pd.as_str. induction xs as [| x xs IH]; cbn [forallb map]; intros H.
  - reflexivity.
  - apply andb_true_iff in H as [Hx Hxs]. rewrite IH by exact Hxs.
    destruct x; try discriminate. reflexivity.
Qed.

Lemma as_str_idempotent (xs : Series) :
  pd.as_str float_repr (pd.as_str float_repr xs) = pd.as_str float_repr xs.
Proof. apply as_str_of_strings, pdFacts.as_str_is_str. Qed.

Lemma length_as_str (xs : Series) :
  List.length (pd.as_str float_repr xs) = List.length xs.
Proof. apply List.length_map. Qed.

Lemma row_counts_astype (df df' : DataFrame) (k : string) :
  pd.astype_str float_repr df k = Ok df' -> row_counts df' = row_counts df.
Proof.
  unfold pd.astype_str. destruct (pd.label_in k (pd.columns df));
    [| discriminate].
  intros H. injection H as <-. unfold row_counts. rewrite map_map.
  apply map_ext. intros [l s]. cbn [fst snd].
  destruct (l =? k); cbn [snd]; [apply length_as_str | reflexivity].
Qed.
End Str.

Lemma row_counts_replace_column (k : string) (v s : Series) (df : DataFrame) :
  pd.lookup k df = Some s -> List.length v = List.length s ->
  row_counts (pd.replace_column k v df) = row_counts df.
Proof.
  intros Hlook Hlen.
  induction df as [| [l s0] df IH]; [reflexivity |].
  cbn [pd.lookup] in Hlook. cbn [pd.replace_column].
  destruct (l =? k).
  - injection Hlook as ->. unfold row_counts. cbn [map snd]. now rewrite Hlen.
  - unfold row_counts in *. cbn [map snd]. now rewrite IH.
Qed.

End CellFacts.

Section ReaderExtras.

Context {Inventory : Type}.
Variable csv_parser : string -> string -> result DataFrame.
Variable inventory_reader : string -> result Inventory.
Variable float_repr : spec_float -> string.

(** The table of a successful [read_stations], column by column, with no
    assumption on the cells. *)
Lemma read_stations_ok_shape (file delimiter : string) (w : world)
      (df : DataFrame) (elevation names : Series) :
  csv_parser file delimiter = Ok df ->
  pd.label_in "Latitude" (pd.columns df) = true ->
  pd.lookup "Elevation" df = Some elevation ->
  pd.lookup "Name" df = Some names ->
  exists table,
    read_stations csv_parser float_repr file delimiter w
      = (Ok table, w ++ [ReadCsv file delimiter])
    /\ pd.columns table = pd.columns df
    /\ row_counts table = row_counts df
    /\ pd.lookup "Elevation" table
       = Some (pd.apply (fun x => int_mul (-1) x) elevation)
    /\ pd.lookup "Name" table = Some (pd.as_str float_repr names)
    /\ forall label,
        ("Elevation" =? label) = false -> ("Name" =? label) = false ->
        pd.lookup label table = pd.lookup label df.
Proof.
  intros Hparse Hlat Helev Hname.
  rewrite read_stations_unfold, Hparse, Hlat, Helev.
  assert (Hin_e : pd.label_in "Elevation" (pd.columns df) = true)
    by (apply pdFacts.lookup_label_in; eauto).
  assert (Hin_n : pd.label_in "Name" (pd.columns df) = true)
    by (apply pdFacts.lookup_label_in; eauto).
  set (negated := pd.apply (fun x => int_mul (-1) x) elevation).
  assert (Hset : pd.setitem df "Elevation" negated
                 = pd.replace_column "Elevation" negated df)
    by (unfold pd.setitem; now rewrite Hin_e).
  rewrite Hset.
  assert (Hcols : pd.columns (pd.replace_column "Elevation" negated df)
                  = pd.columns df)
    by apply pdFacts.columns_replace_column.
  destruct (pdFacts.astype_str_ok float_repr
              (pd.replace_column "Elevation" negated df) "Name")
    as (table & Hast & Hc & Hn & Hother).
  { rewrite Hcols. exact Hin_n. }
  exists table. rewrite Hast.
  split; [reflexivity |]. split; [congruence |].
  split.
  { rewrite (CellFacts.row_counts_astype _ _ _ _ Hast).
    apply (CellFacts.row_counts_replace_column _ _ elevation);
      [exact Helev | apply List.length_map]. }
  split.
  { rewrite Hother by reflexivity.
    apply pdFacts.lookup_replace_column_same. exact Hin_e. }
  split.
  { rewrite Hn, pdFacts.lookup_replace_column_other by reflexivity.
    now rewrite Hname. }
  intros label He Hn'. rewrite Hother by exact Hn'.
  apply pdFacts.lookup_replace_column_other. exact He.
Qed.

(** Without a Name column the conversion of names fails, also after the
    Elevation column has been overwritten. *)
Lemma astype_after_setitem_no_name (df : DataFrame) (elevation v : Series) :
  pd.lookup "Elevation" df = Some elevation ->
  pd.label_in "Name" (pd.columns df) = false ->
  pd.astype_str float_repr (pd.setitem df "Elevation" v) "Name"
  = Raise (KeyError "Name").
Proof.
  intros He Hn. unfold pd.astype_str.
  rewrite pdFacts.columns_setitem_present
    by (apply pdFacts.lookup_label_in; eauto).
  now rewrite Hn.
Qed.

(** A parsed file either makes [read_stations] raise or has the three
    columns the function touches. *)
Lemma read_stations_cases (file delimiter : string) (w : world)
      (df : DataFrame) :
  csv_parser file delimiter = Ok df ->
  (exists e,
      fst (read_stations csv_parser float_repr file delimiter w) = Raise e)
  \/ (exists elevation names,
         pd.label_in "Latitude" (pd.columns df) = true
         /\ pd.lookup "Elevation" df = Some elevation
         /\ pd.lookup "Name" df = Some names).
Proof.
  intros Hparse. rewrite read_stations_unfold, Hparse. cbn [fst].
  destruct (pd.label_in "Latitude" (pd.columns df)); [| left; eauto].
  destruct (pd.lookup "Elevation" df) as [elevation |] eqn:He;
    [| left; eauto].
  destruct (pd.lookup "Name" df) as [names |] eqn:Hn; [right; eauto |].
  left. apply pdFacts.lookup_none in Hn.
  rewrite (astype_after_setitem_no_name df elevation _ He Hn). eauto.
Qed.


(** X2.  An exception raised by the parser (a missing file, a malformed
    line) is raised unchanged by [read_stations], [read_vmodel] and
    [stations], after the one parser call; [stations] has printed its
    notice by then. *)
Theorem readers_pass_on_parser_failure
        (file delimiter : string) (w : world) (e : exn) :
  csv_parser file delimiter = Raise e ->
  read_stations csv_parser float_repr file delimiter w
    = (Raise e, w ++ [ReadCsv file delimiter])
  /\ read_vmodel csv_parser file delimiter w
     = (Raise e, w ++ [ReadCsv file delimiter])
  /\ stations csv_parser float_repr file delimiter w
     = (Raise e, w ++ deprecation_notice ++ [ReadCsv file delimiter]).
Proof.
  intros Hparse. unfold stations, print, bind, emit.
  rewrite !read_stations_unfold, read_vmodel_unfold, Hparse.
  repeat split. unfold deprecation_notice. now rewrite <- !app_assoc.
Qed.

(** X3.  Whatever the cells hold, a table returned by [read_stations] has
    the column labels of the parsed file in the same order and the same
    number of rows in every column, and every column other than Elevation
    and Name is returned as parsed. *)
Theorem read_stations_preserves_shape
        (file delimiter : string) (w : world) (df table : DataFrame) :
  csv_parser file delimiter = Ok df ->
  fst (read_stations csv_parser float_repr file delimiter w) = Ok table ->
  pd.columns table = pd.columns df
  /\ row_counts table = row_counts df
  /\ forall label,
      ("Elevation" =? label) = false -> ("Name" =? label) = false ->
      pd.lookup label table = pd.lookup label df.
Proof.
  intros Hparse Hok.
  destruct (read_stations_cases file delimiter w df Hparse)
    as [[e Hbad] | (elevation & names & Hl & He & Hn)].
  - rewrite Hok in Hbad. discriminate.
  - destruct (read_stations_ok_shape file delimiter w df elevation names
                Hparse Hl He Hn) as (table' & Hrun & Hc & Hr & _ & _ & Ho).
    rewrite Hrun in Hok. cbn [fst] in Hok. injection Hok as <-. auto.
Qed.

(** X4.  An Elevation column that the parser left as text is not
    rejected: the table is returned with every elevation replaced by the
    empty string. *)
Theorem read_stations_blanks_text_elevation
        (file delimiter : string) (w : world) (df : DataFrame)
        (elevation names : Series) :
  csv_parser file delimiter = Ok df ->
  pd.label_in "Latitude" (pd.columns df) = true ->
  pd.lookup "Elevation" df = Some elevation ->
  pd.lookup "Name" df = Some names ->
  forallb is_str elevation = true ->
  exists table,
    fst (read_stations csv_parser float_repr file delimiter w) = Ok table
    /\ pd.lookup "Elevation" table = Some (map (fun _ => CStr "") elevation).
Proof.
  intros Hparse Hl He Hn Htext.
  destruct (read_stations_ok_shape file delimiter w df elevation names
              Hparse Hl He Hn) as (table & Hrun & _ & _ & Hel & _).
  exists table. rewrite Hrun. split; [reflexivity |].
  now rewrite Hel, CellFacts.apply_int_mul_neg_one_str.
Qed.

(** X5.  Reading is an involution on numeric elevations, not a
    normalisation: when a second file parses to the very table that
    [read_stations] returned for a first one, reading the second file
    gives back the elevations of the first as they were parsed, and the
    station names of the first result. *)
Theorem read_stations_reread_restores_elevation
        (file1 file2 delimiter : string) (w1 w2 : world)
        (df table : DataFrame) (elevation names : Series) :
  csv_parser file1 delimiter = Ok df ->
  pd.label_in "Latitude" (pd.columns df) = true ->
  pd.lookup "Elevation" df = Some elevation ->
  pd.lookup "Name" df = Some names ->
  forallb is_number elevation = true ->
  fst (read_stations csv_parser float_repr file1 delimiter w1) = Ok table ->
  csv_parser file2 delimiter = Ok table ->
  exists table2,
    fst (read_stations csv_parser float_repr file2 delimiter w2) = Ok table2
    /\ pd.lookup "Elevation" table2 = Some elevation
    /\ pd.lookup "Name" table2 = pd.lookup "Name" table
    /\ pd.columns table2 = pd.columns df.
Proof.
  intros Hparse Hl He Hn Hnum Hok Hparse2.
  destruct (read_stations_ok_shape file1 delimiter w1 df elevation names
              Hparse Hl He Hn) as (t1 & Hrun & Hc & _ & Hel & Hnm & Ho).
  rewrite Hrun in Hok. cbn [fst] in Hok. injection Hok as ->.
  assert (Hl1 : pd.label_in "Latitude" (pd.columns table) = true)
    by now rewrite Hc.
  destruct (read_stations_ok_shape file2 delimiter w2 table _ _
              Hparse2 Hl1 Hel Hnm) as (t2 & Hrun2 & Hc2 & _ & Hel2 & Hnm2 & _).
  exists t2. rewrite Hrun2. split; [reflexivity |].
  split; [| split].
  - rewrite Hel2. f_equal.
    rewrite (F64Facts.map_int_mul_neg_one elevation Hnum).
    rewrite F64Facts.map_int_mul_neg_one
      by now rewrite CellFacts.forallb_is_number_negation.
    apply CellFacts.map_negation_involutive.
  - now rewrite Hnm2, Hnm, CellFacts.as_str_idempotent.
  - congruence.
Qed.

(** X6.  Station names that the parser read as strings are returned
    verbatim. *)
Theorem read_stations_keeps_string_names
        (file delimiter : string) (w : world) (df : DataFrame)
        (elevation names : Series) :
  csv_parser file delimiter = Ok df ->
  pd.label_in "Latitude" (pd.columns df) = true ->
  pd.lookup "Elevation" df = Some elevation ->
  pd.lookup "Name" df = Some names ->
  forallb is_str names = true ->
  exists table,
    fst (read_stations csv_parser float_repr file delimiter w) = Ok table
    /\ pd.lookup "Name" table = Some names.
Proof.
  intros Hparse Hl He Hn Hstr.
  destruct (read_stations_ok_shape file delimiter w df elevation names
              Hparse Hl He Hn) as (table & Hrun & _ & _ & _ & Hnm & _).
  exists table. rewrite Hrun. split; [reflexivity |].
  now rewrite Hnm, CellFacts.as_str_of_strings.
Qed.

(** X7.  [read_vmodel] returns a table exactly when the parser returns
    one whose header has a Depth column, and the table returned is the
    parsed one. *)
Theorem read_vmodel_ok_iff
        (file delimiter : string) (w : world) (df : DataFrame) :
  fst (read_vmodel csv_parser file delimiter w) = Ok df
  <-> (csv_parser file delimiter = Ok df
       /\ pd.label_in "Depth" (pd.columns df) = true).
Proof.
  rewrite read_vmodel_unfold. cbn [fst].
  destruct (csv_parser file delimiter) as [df0 | e].
  - destruct (pd.label_in "Depth" (pd.columns df0)) eqn:Hd.
    + split.
      * intros H. injection H as <-. auto.
      * intros [H _]. exact H.
    + split; [discriminate |].
      intros [H Hd']. injection H as <-. congruence.
  - split; [discriminate | intros [H _]; discriminate].
Qed.

(** X8.  Without [sac_pz_format] the response reader returns an inventory
    exactly when the inventory reader returns it, and every exception of
    the inventory reader other than a [TypeError] is raised unchanged. *)
Theorem read_response_inv_passes_other_failures
        (response_file : string) (w : world) :
  (forall inv : Inventory,
      fst (read_response_inv inventory_reader response_file false w) = Ok inv
      <-> inventory_reader response_file = Ok inv)
  /\ (forall e : exn,
         inventory_reader response_file = Raise e ->
         is_type_error e = false ->
         read_response_inv inventory_reader response_file false w
         = (Raise e, w ++ [ReadInventory response_file])).
Proof.
  unfold read_response_inv, try, read_inventory, bind, emit, lift, raise, ret.
  split.
  - intros inv. destruct (inventory_reader response_file) as [inv0 | e].
    + reflexivity.
    + destruct e; split; discriminate.
  - intros e He Hte. rewrite He. destruct e; try reflexivity. discriminate.
Qed.

End ReaderExtras.

(* ================================================================= *)
(** * Further properties of the [Run] class *)

Section RunExtras.

Variable log_spacer : string.
Variable util_logger : pathlib.PurePath -> bool -> result unit.

(** A path string that starts with a separator is anchored. *)
Lemma Path_anchored (s : string) :
  Py.truthy (pathlib.root (pathlib.Path (String pathlib.sep s))) = true.
Proof.
  unfold pathlib.Path, pathlib.splitroot.
  rewrite Ascii.eqb_refl.
  destruct (_ =? 2)%nat; reflexivity.
Qed.

(** X9.  Constructing a run again from the stored name and subname of a
    constructed run prints nothing and yields the same run: sanitising is
    stable. *)
Theorem Run_construction_is_stable
        (path nm sub : string) (stage : option string) (w w' : world)
        (r : Run.t) :
  Run.__init__ path nm sub stage w = (Ok r, w') ->
  forall w2 : world,
    Run.__init__ path (Run._name r) (Run.subname r) stage w2 = (Ok r, w2).
Proof.
  rewrite Run_init_unfold. intros H w2. injection H as <- _.
  rewrite Run_init_unfold. cbn [Run._name Run.subname].
  assert (Hn : Py.contains Run.dot (Py.replace Run.dot Run.underscore nm) = false)
    by now apply PathFacts.replace_removes.
  assert (Hs : Py.contains Run.dot (Py.replace Run.dot Run.underscore sub) = false)
    by now apply PathFacts.replace_removes.
  rewrite Hn, Hs. cbn [orb].
  now rewrite !(PathFacts.replace_absent _ _ _ Hn),
    !(PathFacts.replace_absent _ _ _ Hs).
Qed.

(** X10.  The value of the [name] property of a constructed run, which
    names the log file, holds no dot, whatever name and subname were
    given. *)
Theorem Run_name_has_no_dot
        (path nm sub : string) (stage : option string) (w w' : world)
        (r : Run.t) :
  Run.__init__ path nm sub stage w = (Ok r, w') ->
  Py.contains Run.dot (Run.name r) = false.
Proof.
  rewrite Run_init_unfold. intros H. injection H as <- _.
  unfold Run.name. cbn [Run._name Run.subname].
  assert (Hn : Py.contains Run.dot (Py.replace Run.dot Run.underscore nm) = false)
    by now apply PathFacts.replace_removes.
  assert (Hs : Py.contains Run.dot (Py.replace Run.dot Run.underscore sub) = false)
    by now apply PathFacts.replace_removes.
  destruct (_ =? ""); [exact Hn |].
  now rewrite !PathFacts.contains_append, Hn, Hs.
Qed.

(** X11.  [Run.logger] on a run without a stage (the constructor's
    default) raises a [TypeError] before anything is set up.  With a stage,
    [util.logger] is called once with the stem; when it raises, the
    exception is raised unchanged and no banner is logged; when it returns,
    the banner of [__str__] is logged next and nothing else happens. *)
Theorem Run_logger_outcomes (r : Run.t) (log : bool) (w : world) :
  (Run.stage r = None ->
   exists msg,
     Run.logger log_spacer util_logger r log w = (Raise (TypeError msg), w))
  /\ (forall (stem : pathlib.PurePath) (e : exn),
         Run.logstem r = Ok stem ->
         util_logger stem log = Raise e ->
         Run.logger log_spacer util_logger r log w
         = (Raise e, w ++ [UtilLogger stem log]))
  /\ (forall stem : pathlib.PurePath,
         Run.logstem r = Ok stem ->
         util_logger stem log = Ok tt ->
         Run.logger log_spacer util_logger r log w
         = (Ok tt, w ++ [UtilLogger stem log;
                         LoggingInfo (Run.__str__ log_spacer r)])).
Proof.
  unfold Run.logger, bind, lift, emit.
  repeat split.
  - intros Hstage. unfold Run.logstem. rewrite Hstage. eauto.
  - intros stem e Hstem He. now rewrite Hstem, He.
  - intros stem Hstem Hok. rewrite Hstem, Hok. now rewrite <- app_assoc.
Qed.

(** X12.  The base path is dropped when the stored name starts with a
    separator: the run root is then the name alone.  With an empty name the
    run root is the base path itself. *)
Theorem Run_root_edge_cases
        (path nm sub : string) (stage : option string) (w w' : world)
        (r : Run.t) :
  Run.__init__ path nm sub stage w = (Ok r, w') ->
  (forall rest : string,
      Run._name r = String pathlib.sep rest ->
      Run.path r = pathlib.Path (Run._name r))
  /\ (Run._name r = "" -> Run.path r = pathlib.Path path).
Proof.
  rewrite Run_init_unfold. intros H. injection H as <- _.
  cbn [Run._name Run.path]. split.
  - intros rest ->. unfold pathlib.div. now rewrite Path_anchored.
  - intros ->. apply PathFacts.div_empty.
Qed.

End RunExtras.

(** ** The additional properties on concrete inputs *)


Lemma readers_pass_on_parser_failure_witness :
  read_stations (Sample.one_file "a.csv" Sample.scenario) Sample.repr_unused
                "b.csv" "," []
    = (Raise (OtherError "FileNotFoundError" "b.csv"),
       [] ++ [ReadCsv "b.csv" ","])
  /\ read_vmodel (Sample.one_file "a.csv" Sample.scenario) "b.csv" "," []
     = (Raise (OtherError "FileNotFoundError" "b.csv"),
        [] ++ [ReadCsv "b.csv" ","])
  /\ stations (Sample.one_file "a.csv" Sample.scenario) Sample.repr_unused
              "b.csv" "," []
     = (Raise (OtherError "FileNotFoundError" "b.csv"),
        [] ++ deprecation_notice ++ [ReadCsv "b.csv" ","]).
Proof.
  apply (readers_pass_on_parser_failure
           (Sample.one_file "a.csv" Sample.scenario) Sample.repr_unused
           "b.csv" "," []).
  reflexivity.
Defined.

Lemma read_stations_preserves_shape_witness :
  pd.columns MoreSamples.scenario_read = pd.columns Sample.scenario
  /\ row_counts MoreSamples.scenario_read = row_counts Sample.scenario
  /\ forall label,
      ("Elevation" =? label) = false -> ("Name" =? label) = false ->
      pd.lookup label MoreSamples.scenario_read
      = pd.lookup label Sample.scenario.
Proof.
  apply (read_stations_preserves_shape
           (Sample.one_file "a.csv" Sample.scenario) Sample.repr_unused
           "a.csv" "," []);
    reflexivity.
Defined.

Lemma read_stations_blanks_text_elevation_witness :
  exists table,
    fst (read_stations (Sample.one_file "a.csv" MoreSamples.text_elevation)
                       Sample.repr_unused "a.csv" "," [])
    = Ok table
    /\ pd.lookup "Elevation" table
       = Some (map (fun _ => CStr "") [CStr "100m"; CStr "250m"]).
Proof.
  apply (read_stations_blanks_text_elevation
           (Sample.one_file "a.csv" MoreSamples.text_elevation)
           Sample.repr_unused "a.csv" "," [] MoreSamples.text_elevation
           [CStr "100m"; CStr "250m"] [CStr "ST1"; CStr "ST2"]);
    reflexivity.
Defined.

Lemma read_stations_reread_witness :
  exists table2,
    fst (read_stations
           (MoreSamples.two_files "in.csv" Sample.scenario
                                  "out.csv" MoreSamples.scenario_read)
           Sample.repr_unused "out.csv" "," [])
    = Ok table2
    /\ pd.lookup "Elevation" table2 = Some [Sample.num 100]
    /\ pd.lookup "Name" table2 = pd.lookup "Name" MoreSamples.scenario_read
    /\ pd.columns table2 = pd.columns Sample.scenario.
Proof.
  apply (read_stations_reread_restores_elevation
           (MoreSamples.two_files "in.csv" Sample.scenario
                                  "out.csv" MoreSamples.scenario_read)
           Sample.repr_unused "in.csv" "out.csv" "," [] []
           Sample.scenario MoreSamples.scenario_read
           [Sample.num 100] [CStr "ST1"]);
    reflexivity.
Defined.

Lemma read_stations_keeps_string_names_witness :
  exists table,
    fst (read_stations (Sample.one_file "a.csv" Sample.scenario)
                       Sample.repr_unused "a.csv" "," [])
    = Ok table
    /\ pd.lookup "Name" table = Some [CStr "ST1"].
Proof.
  apply (read_stations_keeps_string_names
           (Sample.one_file "a.csv" Sample.scenario) Sample.repr_unused
           "a.csv" "," [] Sample.scenario [Sample.num 100] [CStr "ST1"]);
    reflexivity.
Defined.

Lemma read_vmodel_ok_iff_witness :
  fst (read_vmodel (Sample.one_file "v.csv" Sample.vmodel) "v.csv" "," [])
  = Ok Sample.vmodel.
Proof.
  apply (proj2 (read_vmodel_ok_iff
                  (Sample.one_file "v.csv" Sample.vmodel) "v.csv" "," []
                  Sample.vmodel)).
  split; reflexivity.
Defined.

Lemma read_response_inv_passes_other_failures_witness :
  fst (read_response_inv Sample.inventories "good.xml" false []) = Ok tt
  /\ read_response_inv Sample.inventories "absent.xml" false []
     = (Raise (OtherError "FileNotFoundError" "absent.xml"),
        [] ++ [ReadInventory "absent.xml"]).
Proof.
  split.
  - apply (proj2 (proj1 (read_response_inv_passes_other_failures
                           Sample.inventories "good.xml" []) tt)).
    reflexivity.
  - apply (proj2 (read_response_inv_passes_other_failures
                    Sample.inventories "absent.xml" []));
      reflexivity.
Defined.

Lemma Run_construction_is_stable_witness :
  Run.__init__ "out" "run_1" "a_b" (Some "detect") []
  = (Ok (Run.mk (pathlib.Path "out" </> "run_1") "run_1" (Some "detect") "a_b"),
     []).
Proof.
  apply (Run_construction_is_stable
           "out" "run.1" "a.b" (Some "detect") [] [Print dot_warning]
           (Run.mk (pathlib.Path "out" </> "run_1") "run_1"
                   (Some "detect") "a_b")).
  reflexivity.
Defined.

Lemma Run_name_has_no_dot_witness :
  Py.contains Run.dot
    (Run.name (Run.mk (pathlib.Path "out" </> "run_1") "run_1"
                      (Some "detect") "a_b"))
  = false.
Proof.
  apply (Run_name_has_no_dot
           "out" "run.1" "a.b" (Some "detect") [] [Print dot_warning]).
  reflexivity.
Defined.

Lemma Run_logger_outcomes_witness :
  (exists msg,
      Run.logger "----" MoreSamples.quiet_logger
                 (Run.mk (pathlib.Path "out" </> "run") "run" None "") true []
      = (Raise (TypeError msg), []))
  /\ Run.logger "----" MoreSamples.failing_logger
                (Run.mk (pathlib.Path "out" </> "run") "run" (Some "detect") "")
                true []
     = (Raise (OtherError "PermissionError" "logs"),
        [] ++ [UtilLogger (pathlib.mkPath "" ["out"; "run"; "detect"; "logs"; "run"])
                          true])
  /\ Run.logger "----" MoreSamples.quiet_logger
                (Run.mk (pathlib.Path "out" </> "run") "run" (Some "detect") "")
                true []
     = (Ok tt,
        [] ++ [UtilLogger (pathlib.mkPath "" ["out"; "run"; "detect"; "logs"; "run"])
                          true;
               LoggingInfo
                 (Run.__str__ "----"
                    (Run.mk (pathlib.Path "out" </> "run") "run"
                            (Some "detect") ""))]).
Proof.
  split; [| split].
  - apply (proj1 (Run_logger_outcomes
                    "----" MoreSamples.quiet_logger
                    (Run.mk (pathlib.Path "out" </> "run") "run" None "")
                    true [])).
    reflexivity.
  - apply (proj1 (proj2 (Run_logger_outcomes
                           "----" MoreSamples.failing_logger
                           (Run.mk (pathlib.Path "out" </> "run") "run"
                                   (Some "detect") "")
                           true [])));
      reflexivity.
  - apply (proj2 (proj2 (Run_logger_outcomes
                           "----" MoreSamples.quiet_logger
                           (Run.mk (pathlib.Path "out" </> "run") "run"
                                   (Some "detect") "")
                           true [])));
      reflexivity.
Defined.

Lemma Run_root_edge_cases_witness :
  Run.path (Run.mk (pathlib.Path "out" </> "/data/run") "/data/run" None "")
  = pathlib.Path "/data/run"
  /\ Run.path (Run.mk (pathlib.Path "out" </> "") "" None "")
     = pathlib.Path "out".
Proof.
  split.
  - apply (proj1 (Run_root_edge_cases
                    "out" "/data/run" "" None [] []
                    (Run.mk (pathlib.Path "out" </> "/data/run") "/data/run"
                            None "")
                    eq_refl) "data/run").
    reflexivity.
  - apply (proj2 (Run_root_edge_cases
                    "out" "" "" None [] []
                    (Run.mk (pathlib.Path "out" </> "") "" None "")
                    eq_refl)).
    reflexivity.
Defined.

Lemma Run_logstem_string_witness :
  exists stem,
    Run.logstem (Run.mk (pathlib.Path "data/out" </> "run_1") "run_1"
                        (Some "detect") "sub")
    = Ok stem
    /\ pathlib.str stem
       = (pathlib.str (pathlib.Path "data/out") ++ "/" ++ "run_1"
          ++ "/" ++ "detect" ++ "/" ++ "sub"
          ++ "/logs/" ++ "run_1_sub")%string.
Proof.
  apply (Run_logstem_string
           "data/out" "run.1" "sub" "detect" [] [Print dot_warning]
           (Run.mk (pathlib.Path "data/out" </> "run_1") "run_1"
                   (Some "detect") "sub"));
    try reflexivity.
  vm_compute. discriminate.
Defined.

(** ** Two more properties of the station reader and of the log stem *)

Section MoreExtras.

Variable csv_parser : string -> string -> result DataFrame.
Variable float_repr : spec_float -> string.

(** X14.  A numeric Elevation column stays numeric: every elevation of the
    returned table is again an integer or a binary64 number. *)
Theorem read_stations_elevation_stays_numeric
        (file delimiter : string) (w : world) (df : DataFrame)
        (elevation names : Series) :
  csv_parser file delimiter = Ok df ->
  pd.label_in "Latitude" (pd.columns df) = true ->
  pd.lookup "Elevation" df = Some elevation ->
  pd.lookup "Name" df = Some names ->
  forallb is_number elevation = true ->
  exists table returned,
    fst (read_stations csv_parser float_repr file delimiter w) = Ok table
    /\ pd.lookup "Elevation" table = Some returned
    /\ forallb is_number returned = true
    /\ List.length returned = List.length elevation.
Proof.
  intros Hparse Hl He Hn Hnum.
  destruct (read_stations_ok_shape csv_parser float_repr file delimiter w df
              elevation names Hparse Hl He Hn)
    as (table & Hrun & _ & _ & Hel & _).
  exists table, (map negation elevation). rewrite Hrun.
  split; [reflexivity |]. split.
  - now rewrite Hel, F64Facts.map_int_mul_neg_one.
  - split; [now rewrite CellFacts.forallb_is_number_negation |].
    apply List.length_map.
Qed.

(** X15.  A stored subname that starts with a separator takes the log
    stem out of the run directory: the stem is then the subname, [logs] and
    the value of the [name] property, with neither the base path nor the
    stage in it. *)
Theorem Run_logstem_anchored_subname
        (path nm sub stage : string) (w w' : world) (r : Run.t)
        (rest : string) :
  Run.__init__ path nm sub (Some stage) w = (Ok r, w') ->
  Run.subname r = String pathlib.sep rest ->
  Run.logstem r
  = Ok (pathlib.Path (Run.subname r) </> "logs" </> Run.name r).
Proof.
  intros Hinit Hsub.
  destruct (Run_layout_joins _ _ _ _ _ _ _ Hinit) as [_ Hstem].
  rewrite Hstem. do 3 f_equal.
  rewrite Hsub. unfold pathlib.div at 1. now rewrite Path_anchored.
Qed.

End MoreExtras.

Lemma read_stations_elevation_stays_numeric_witness :
  exists table returned,
    fst (read_stations (Sample.one_file "a.csv" Sample.reordered)
                       Sample.repr_unused "a.csv" "," [])
    = Ok table
    /\ pd.lookup "Elevation" table = Some returned
    /\ forallb is_number returned = true
    /\ List.length returned = List.length [Sample.num 250; CInt (-30)].
Proof.
  apply (read_stations_elevation_stays_numeric
           (Sample.one_file "a.csv" Sample.reordered) Sample.repr_unused
           "a.csv" "," [] Sample.reordered
           [Sample.num 250; CInt (-30)] [CInt 1001; CInt 1002]);
    reflexivity.
Defined.

Lemma Run_logstem_anchored_subname_witness :
  Run.logstem (Run.mk (pathlib.Path "out" </> "run") "run"
                      (Some "detect") "/tmp/x")
  = Ok (pathlib.Path "/tmp/x" </> "logs"
        </> Run.name (Run.mk (pathlib.Path "out" </> "run") "run"
                             (Some "detect") "/tmp/x")).
Proof.
  apply (Run_logstem_anchored_subname
           "out" "run" "/tmp/x" "detect" [] []
           (Run.mk (pathlib.Path "out" </> "run") "run"
                   (Some "detect") "/tmp/x")
           "tmp/x");
    reflexivity.
Defined.
